(** * tiny-circuit-breaker: a shallow embedding of [circuitbreaker.go]

    The breaker of [circuitbreaker.go] is embedded function by function.
    Go's [int] and [time.Duration] are 64-bit signed integers, modelled as
    [Z] with the wrap-around written out; a [time.Time] is an instant on a
    single time line counted in nanoseconds from the zero [time.Time{}];
    [interface{}] and [error] results are options ([None] is Go's [nil]).

    What the breaker observes of the outside world during one [Call] (the
    clock readings of [time.Now()], which case of the [select] in
    [callService] fires, what the fallback returns) is gathered in a
    [CallEnv]; what it does to the outside world (invoking the service, the
    fallback and the hooks) is recorded, in order, in a trace.  The
    callables and hooks themselves are opaque: the model assumes they do not
    reach back into the breaker's fields. *)

From Stdlib Require Import ZArith List String Bool Lia DecimalString.
Import ListNotations.
Open Scope string_scope.
Open Scope Z_scope.

(** ** Machine integers, durations and instants *)

Module Int64.

Definition min : Z := - 2 ^ 63.
Definition max : Z := 2 ^ 63 - 1.

(** Two's complement wrap-around of a 64-bit signed result. *)
Definition wrap (z : Z) : Z := (z + 2 ^ 63) mod 2 ^ 64 - 2 ^ 63.

Definition add (a b : Z) : Z := wrap (a + b).
Definition mul (a b : Z) : Z := wrap (a * b).

Definition in_range (z : Z) : Prop := min <= z <= max.

End Int64.

(** [time.Duration]: a count of nanoseconds in an [int64]. *)
Definition Duration := Z.

Definition Millisecond : Duration := 1000000.

Definition minDuration : Duration := Int64.min.
Definition maxDuration : Duration := Int64.max.

(** [time.Time]: nanoseconds elapsed since the zero instant [time.Time{}]. *)
Definition Time := Z.

Definition zeroTime : Time := 0.

(** [t.Sub(u)]: the duration t-u, or the extreme duration when the
    difference does not fit. *)
Definition Sub (t u : Time) : Duration :=
  let d := t - u in
  if d <? minDuration then minDuration
  else if maxDuration <? d then maxDuration
  else d.

(** ** Errors *)

(** An [error] is known by its message: [Errorf] stands for the values
    built by [fmt.Errorf] (and for whatever error a callable returns),
    [CallingError] for the struct of that name. *)
Inductive error : Type :=
| Errorf (msg : string)
| CallingError (Cause : error).

Fixpoint Error (e : error) : string :=
  match e with
  | Errorf msg => msg
  | CallingError Cause => "Error when calling service: " ++ Error Cause
  end.

(** The verb [%d] applied to an integer. *)
Definition fmt_d (z : Z) : string := NilZero.string_of_int (Z.to_int z).

(** ** Circuit states *)

(** [IsClosed], [IsHalfOpen] and [IsOpen] are the iota constants 1, 2, 3;
    [IsInvalid] stands for every other value of the underlying [int], the
    one the [default] branches handle. *)
Inductive CircuitState : Type :=
| IsInvalid
| IsClosed
| IsHalfOpen
| IsOpen.

Definition ToString (s : CircuitState) : string :=
  match s with
  | IsClosed => "closed"
  | IsHalfOpen => "half-open"
  | IsOpen => "open"
  | IsInvalid => "invalid"
  end.

Definition CircuitState_eq_dec (a b : CircuitState) : {a = b} + {a <> b}.
Proof. decide equality. Defined.

Definition CircuitState_eqb (a b : CircuitState) : bool :=
  if CircuitState_eq_dec a b then true else false.

(** Default value for missing settings on creation. *)
Definition DefautTimeout : Duration := 2000.
Definition DefaultRetryTimePeriod : Duration := 3000.
Definition DefautlFailureThreshold : Z := 2.

(** What the outside world is seen to do, in order. *)
Inductive Event : Type :=
| ServiceInvoked
| FallbackInvoked
| OnStateChangeFired
| OnTripFired
| OnResetFired.

(** ** A state monad for the methods that mutate the breaker *)

Definition M (S A : Type) : Type := S -> A * S.

Definition ret {S A : Type} (a : A) : M S A := fun s => (a, s).

Definition bind {S A B : Type} (m : M S A) (k : A -> M S B) : M S B :=
  fun s => let (a, s') := m s in k a s'.

Declare Scope monad_scope.
Delimit Scope monad_scope with monad.

Notation "x <- m ;; k" := (bind m (fun x => k))
  (at level 61, m at next level, right associativity) : monad_scope.
Notation "' pat <- m ;; k" :=
  (bind m (fun x => match x with pat => k end))
  (at level 61, pat pattern, m at next level, right associativity)
  : monad_scope.
Notation "m ;; k" := (bind m (fun _ => k))
  (at level 61, right associativity) : monad_scope.

Open Scope monad_scope.

Section Breaker.

(** The content a callable returns, and the opaque Go function values. *)
Variable Content : Type.
Variable Callable : Type.
Variable CircuitEvent : Type.

Record CircuitSettings : Type := {
  Service : option Callable;
  Fallback : option Callable;
  Timeout : Duration;
  RetryTimePeriod : Duration;
  FailureThreshold : Z;
  OnTrip : option CircuitEvent;
  OnReset : option CircuitEvent;
  OnStateChange : option CircuitEvent
}.

Record callableResponse : Type := {
  rContent : option Content;
  rError : option error
}.

Record CircuitBreaker : Type := {
  Settings : CircuitSettings;
  LastFailureTime : Time;
  FailureCount : Z;
  FailureRecord : list string
}.

Definition with_Timeout (s : CircuitSettings) (d : Duration) :=
  {| Service := Service s; Fallback := Fallback s; Timeout := d;
     RetryTimePeriod := RetryTimePeriod s;
     FailureThreshold := FailureThreshold s; OnTrip := OnTrip s;
     OnReset := OnReset s; OnStateChange := OnStateChange s |}.

Definition with_RetryTimePeriod (s : CircuitSettings) (d : Duration) :=
  {| Service := Service s; Fallback := Fallback s; Timeout := Timeout s;
     RetryTimePeriod := d;
     FailureThreshold := FailureThreshold s; OnTrip := OnTrip s;
     OnReset := OnReset s; OnStateChange := OnStateChange s |}.

Definition with_FailureThreshold (s : CircuitSettings) (n : Z) :=
  {| Service := Service s; Fallback := Fallback s; Timeout := Timeout s;
     RetryTimePeriod := RetryTimePeriod s;
     FailureThreshold := n; OnTrip := OnTrip s;
     OnReset := OnReset s; OnStateChange := OnStateChange s |}.

(** [NewCircuitBreaker] builds a circuit breaker from a settings spec. *)
Definition NewCircuitBreaker (settings : CircuitSettings)
  : option CircuitBreaker * option error :=
  match Service settings with
  | None => (None, Some (Errorf "You must provide a service to be called"))
  | Some _ =>
    let settings :=
      if Timeout settings =? 0
      then with_Timeout settings DefautTimeout else settings in
    let settings :=
      if RetryTimePeriod settings =? 0
      then with_RetryTimePeriod settings DefaultRetryTimePeriod
      else settings in
    let settings :=
      if FailureThreshold settings =? 0
      then with_FailureThreshold settings DefautlFailureThreshold
      else settings in
    (Some {| Settings := settings;
             LastFailureTime := zeroTime;
             FailureCount := 0;
             FailureRecord := [] |},
     None)
  end.

(** [State] reflects the most up to date state of the circuit; [now] is
    the reading of [time.Now()]. *)
Definition State (now : Time) (cb : CircuitBreaker) : CircuitState :=
  if FailureCount cb >=? FailureThreshold (Settings cb) then
    let gracePeriod := Int64.mul (Sub now (LastFailureTime cb)) Millisecond in
    if gracePeriod >? RetryTimePeriod (Settings cb) then IsHalfOpen
    else IsOpen
  else IsClosed.

(** *** The breaker together with what it has done to the outside *)

Record World : Type := {
  breaker : CircuitBreaker;
  trace : list Event
}.

Definition getCB : M World CircuitBreaker := fun w => (breaker w, w).

Definition modifyCB (f : CircuitBreaker -> CircuitBreaker) : M World unit :=
  fun w => (tt, {| breaker := f (breaker w); trace := trace w |}).

Definition emit (e : Event) : M World unit :=
  fun w => (tt, {| breaker := breaker w; trace := (trace w ++ [e])%list |}).

Definition set_FailureCount (n : Z) (cb : CircuitBreaker) :=
  {| Settings := Settings cb; LastFailureTime := LastFailureTime cb;
     FailureCount := n; FailureRecord := FailureRecord cb |}.

Definition set_LastFailureTime (t : Time) (cb : CircuitBreaker) :=
  {| Settings := Settings cb; LastFailureTime := t;
     FailureCount := FailureCount cb; FailureRecord := FailureRecord cb |}.

Definition set_FailureRecord (l : list string) (cb : CircuitBreaker) :=
  {| Settings := Settings cb; LastFailureTime := LastFailureTime cb;
     FailureCount := FailureCount cb; FailureRecord := l |}.

(** Which case of the [select] of [callService] is taken: the response
    of the service arrives on the channel, or the timer expires. *)
Inductive SelectEvent : Type :=
| ResponseReceived (res : callableResponse)
| TimerFired.

(** What one [Call] observes of the outside world. *)
Record CallEnv : Type := {
  now_pre : Time;                       (* [time.Now()] of the first [State] *)
  service_event : SelectEvent;          (* the [select], if the service is called *)
  fallback_response : callableResponse; (* what the fallback returns, if called *)
  now_failure : Time;                   (* [time.Now()] of [recordFailure] *)
  now_post : Time                       (* [time.Now()] of the second [State] *)
}.

(** [callService] starts the service in a goroutine of its own and waits
    for its response or for the timer, set to [Timeout * time.Millisecond],
    whichever comes first: [ev] is the case of the select that is taken.
    The service is invoked in either case (a call that timed out is not
    cancelled).  Invoking a nil service would panic: the model is of
    breakers whose service is set, as [NewCircuitBreaker] ensures. *)
Definition callService (ev : SelectEvent)
  : M World (option Content * option error) :=
  cb <- getCB ;;
  emit ServiceInvoked ;;
  match ev with
  | ResponseReceived res =>
    match rError res with
    | Some e => ret (None, Some (CallingError e))
    | None =>
      match rContent res with
      | None =>
        let err := Errorf "Service respond is nil" in
        ret (None, Some (CallingError err))
      | Some c => ret (Some c, None)
      end
    end
  | TimerFired =>
    let err := Errorf ("Service timed out after "
                       ++ fmt_d (Timeout (Settings cb)) ++ " milliseconds") in
    ret (None, Some (CallingError err))
  end.

Definition mayCallFallback (fb : callableResponse)
  : M World (option Content * bool * option error) :=
  cb <- getCB ;;
  match Fallback (Settings cb) with
  | None => ret (None, false, None)
  | Some _ =>
    (* So ok, we have a fallback and we're going to rely on it *)
    emit FallbackInvoked ;;
    ret (rContent fb, true, rError fb)
  end.

Definition selectiveCall (env : CallEnv) (state : CircuitState)
  : M World (option Content * bool * option error) :=
  match state with
  | IsOpen =>
    ' (res, fallbacked, err) <- mayCallFallback (fallback_response env) ;;
    match err with
    | Some e =>
      ret (res, fallbacked,
           Some (Errorf ("Service was fallbacked due to open state but failed too: "
                         ++ Error e)))
    | None =>
      ret (res, fallbacked,
           Some (Errorf "Service was fallbacked due to open state"))
    end
  | IsHalfOpen | IsClosed =>
    ' (res, err) <- callService (service_event env) ;;
    match err with
    | Some e =>
      (* In case of any error, we go for a possible fallback *)
      ' (res, fallbacked, fberr) <- mayCallFallback (fallback_response env) ;;
      if fallbacked then
        match fberr with
        | Some fe =>
          ret (res, fallbacked,
               Some (Errorf ("Service was fallbacked due to error but failed too: "
                             ++ Error fe ++ ": " ++ Error e)))
        | None =>
          ret (res, fallbacked,
               Some (Errorf ("Service was fallbacked due to error: " ++ Error e)))
        end
      else ret (res, false, err)
    | None => ret (res, false, err)
    end
  | IsInvalid => ret (None, false, Some (Errorf "Unknown state"))
  end.

Definition resetState : M World unit :=
  modifyCB (set_FailureCount 0) ;;
  modifyCB (set_FailureRecord []) ;;
  modifyCB (set_LastFailureTime zeroTime).

Definition recordFailure (now : Time) (err : option error) : M World unit :=
  cb <- getCB ;;
  modifyCB (set_FailureCount (Int64.add (FailureCount cb) 1)) ;;
  modifyCB (set_LastFailureTime now) ;;
  let err :=
    match err with
    | None => Errorf "Service is relying on fallback"
    | Some e => e
    end in
  cb <- getCB ;;
  modifyCB (set_FailureRecord (FailureRecord cb ++ [Error err])%list).

Definition fire (hook : option CircuitEvent) (e : Event) : M World unit :=
  match hook with
  | Some _ => emit e
  | None => ret tt
  end.

Definition notifyState (preState newState : CircuitState) : M World unit :=
  cb <- getCB ;;
  if negb (CircuitState_eqb newState preState) then
    (* We notify it generally *)
    fire (OnStateChange (Settings cb)) OnStateChangeFired ;;
    (* And specifically *)
    match newState with
    | IsOpen => fire (OnTrip (Settings cb)) OnTripFired
    | IsClosed => fire (OnReset (Settings cb)) OnResetFired
    | _ => ret tt
    end
  else ret tt.

(** [Call] is the circuit breaker safe call to a service.  It returns the
    content, whether it relied on the fallback, and an error or nil. *)
Definition Call (env : CallEnv)
  : M World (option Content * bool * option error) :=
  cb <- getCB ;;
  let preState := State (now_pre env) cb in
  ' (res, fallbacked, err) <- selectiveCall env preState ;;
  (if fallbacked : bool then recordFailure (now_failure env) err
   else resetState) ;;
  cb <- getCB ;;
  let newState := State (now_post env) cb in
  notifyState preState newState ;;
  ret (res, fallbacked, err).

(** A sequence of calls made one after the other. *)
Fixpoint Calls (envs : list CallEnv) : M World unit :=
  match envs with
  | [] => ret tt
  | env :: envs' => Call env ;; Calls envs'
  end.

Definition fresh (cb : CircuitBreaker) : World :=
  {| breaker := cb; trace := [] |}.

End Breaker.

Arguments Service {Callable CircuitEvent} _.
Arguments Fallback {Callable CircuitEvent} _.
Arguments Timeout {Callable CircuitEvent} _.
Arguments RetryTimePeriod {Callable CircuitEvent} _.
Arguments FailureThreshold {Callable CircuitEvent} _.
Arguments OnTrip {Callable CircuitEvent} _.
Arguments OnReset {Callable CircuitEvent} _.
Arguments OnStateChange {Callable CircuitEvent} _.
Arguments rContent {Content} _.
Arguments rError {Content} _.
Arguments Settings {Callable CircuitEvent} _.
Arguments LastFailureTime {Callable CircuitEvent} _.
Arguments FailureCount {Callable CircuitEvent} _.
Arguments FailureRecord {Callable CircuitEvent} _.
Arguments NewCircuitBreaker {Callable CircuitEvent} settings.
Arguments State {Callable CircuitEvent} now cb.
Arguments breaker {Callable CircuitEvent} _.
Arguments trace {Callable CircuitEvent} _.
Arguments ResponseReceived {Content} res.
Arguments TimerFired {Content}.
Arguments now_pre {Content} _.
Arguments service_event {Content} _.
Arguments fallback_response {Content} _.
Arguments now_failure {Content} _.
Arguments now_post {Content} _.
Arguments callService {Content Callable CircuitEvent} ev _.
Arguments mayCallFallback {Content Callable CircuitEvent} fb _.
Arguments selectiveCall {Content Callable CircuitEvent} env state _.
Arguments resetState {Callable CircuitEvent} _.
Arguments recordFailure {Callable CircuitEvent} now err _.
Arguments notifyState {Callable CircuitEvent} preState newState _.
Arguments Call {Content Callable CircuitEvent} env _.
Arguments Calls {Content Callable CircuitEvent} envs _.
Arguments fresh {Callable CircuitEvent} cb.

(** ** Reading the outcome of a call *)

Section Outcome.

Variable Content : Type.
Variable Callable : Type.
Variable CircuitEvent : Type.

Let W := World Callable CircuitEvent.
Let Env := CallEnv Content.

(** The three values [Call] returns and the world it leaves. *)
Definition Call_content (env : Env) (w : W) : option Content :=
  fst (fst (fst (Call env w))).

Definition Call_fallbacked (env : Env) (w : W) : bool :=
  snd (fst (fst (Call env w))).

Definition Call_error (env : Env) (w : W) : option error :=
  snd (fst (Call env w)).

Definition Call_world (env : Env) (w : W) : W :=
  snd (Call env w).

(** The events a call adds to the trace. *)
Definition Call_events (env : Env) (w : W) : list Event :=
  skipn (List.length (trace w)) (trace (Call_world env w)).

(** The state derived before the call and the one derived after it. *)
Definition preState (env : Env) (w : W) : CircuitState :=
  State (now_pre env) (breaker w).

Definition newState (env : Env) (w : W) : CircuitState :=
  State (now_post env) (breaker (Call_world env w)).

(** The select of [callService] received a response that carries
    content and no error. *)
Definition valid_response (ev : SelectEvent Content) : Prop :=
  exists res c,
    ev = ResponseReceived res /\ rError res = None /\ rContent res = Some c.

(** The select of [callService] ended in a failure of the service: the
    timer fired, or the response carries an error or no content. *)
Definition service_failed (ev : SelectEvent Content) : bool :=
  match ev with
  | TimerFired => true
  | ResponseReceived res =>
    match rError res, rContent res with
    | None, Some _ => false
    | _, _ => true
    end
  end.

(** A genuine success: the breaker was not open, so the service was
    called, and the call brought back a valid response. *)
Definition genuine_success (env : Env) (w : W) : Prop :=
  preState env w <> IsOpen /\ valid_response (service_event env).

End Outcome.

Arguments Call_content {Content Callable CircuitEvent} env w.
Arguments Call_fallbacked {Content Callable CircuitEvent} env w.
Arguments Call_error {Content Callable CircuitEvent} env w.
Arguments Call_world {Content Callable CircuitEvent} env w.
Arguments Call_events {Content Callable CircuitEvent} env w.
Arguments preState {Content Callable CircuitEvent} env w.
Arguments newState {Content Callable CircuitEvent} env w.
Arguments valid_response {Content} ev.
Arguments service_failed {Content} ev.
Arguments genuine_success {Content Callable CircuitEvent} env w.

Definition is_hook (e : Event) : bool :=
  match e with
  | OnStateChangeFired | OnTripFired | OnResetFired => true
  | ServiceInvoked | FallbackInvoked => false
  end.

(** The hooks among a list of events, in the order they fired. *)
Definition hooks_of (evs : list Event) : list Event := filter is_hook evs.

Definition registered {A : Type} (hook : option A) : Prop := hook <> None.

(** The rule of the specification (section 4.1): the elapsed time and the
    grace period are compared as they are, without any scaling.  It is
    kept apart from [State], to compare the two. *)
Definition deriveState (failureCount : Z) (lastFailureTime : Time)
    (threshold : Z) (gracePeriod : Duration) (now : Time) : CircuitState :=
  if failureCount <? threshold then IsClosed
  else if now - lastFailureTime >? gracePeriod then IsHalfOpen
  else IsOpen.

(** The hooks a call fires, in order. *)
Definition hooks_fired {Content Callable CircuitEvent : Type}
    (env : CallEnv Content) (w : World Callable CircuitEvent) : list Event :=
  hooks_of (Call_events env w).

(** The breaker [cb] after the calls [envs], made one after the other. *)
Definition after {Content Callable CircuitEvent : Type}
    (envs : list (CallEnv Content)) (cb : CircuitBreaker Callable CircuitEvent)
  : CircuitBreaker Callable CircuitEvent :=
  breaker (snd (Calls envs (fresh cb))).

(** ** What the ledger and the notifier leave behind *)

Section Ledger.

Variable Callable : Type.
Variable CircuitEvent : Type.

Let Breaker := CircuitBreaker Callable CircuitEvent.

(** The message [recordFailure] appends for [err]. *)
Definition failure_message (err : option error) : string :=
  match err with
  | None => "Service is relying on fallback"
  | Some e => Error e
  end.

(** The breaker once [recordFailure] has run at instant [now]. *)
Definition recorded (now : Time) (err : option error) (cb : Breaker)
  : Breaker :=
  {| Settings := Settings cb;
     LastFailureTime := now;
     FailureCount := Int64.add (FailureCount cb) 1;
     FailureRecord := (FailureRecord cb ++ [failure_message err])%list |}.

(** The breaker once [resetState] has run. *)
Definition cleared (cb : Breaker) : Breaker :=
  {| Settings := Settings cb;
     LastFailureTime := zeroTime;
     FailureCount := 0;
     FailureRecord := [] |}.

Definition fired {A : Type} (hook : option A) (e : Event) : list Event :=
  match hook with
  | Some _ => [e]
  | None => []
  end.

(** The events [notifyState] adds for a breaker with settings [s]. *)
Definition hook_events (s : CircuitSettings Callable CircuitEvent)
    (pre post : CircuitState) : list Event :=
  if CircuitState_eq_dec post pre then []
  else
    (fired (OnStateChange s) OnStateChangeFired
     ++ match post with
        | IsOpen => fired (OnTrip s) OnTripFired
        | IsClosed => fired (OnReset s) OnResetFired
        | _ => []
        end)%list.

End Ledger.

Arguments recorded {Callable CircuitEvent} now err cb.
Arguments cleared {Callable CircuitEvent} cb.
Arguments fired {A} hook e.
Arguments hook_events {Callable CircuitEvent} s pre post.

(** ** Sample breakers and calls, after [fixtures.go] *)

Module Samples.

Definition Breaker : Type := CircuitBreaker string string.

(** The settings of [createCircuitBreaker], with the three hooks set. *)
Definition settings (fallback : option string)
  : CircuitSettings string string :=
  {| Service := Some "service";
     Fallback := fallback;
     Timeout := DefautTimeout;
     RetryTimePeriod := DefaultRetryTimePeriod;
     FailureThreshold := DefautlFailureThreshold;
     OnTrip := Some "onTrip";
     OnReset := Some "onReset";
     OnStateChange := Some "onStateChange" |}.

Definition with_fallback := settings (Some "fallback").
Definition without_fallback := settings None.

(** A settings spec that leaves everything but the service unset. *)
Definition bare : CircuitSettings string string :=
  {| Service := Some "service"; Fallback := None;
     Timeout := 0; RetryTimePeriod := 0; FailureThreshold := 0;
     OnTrip := None; OnReset := None; OnStateChange := None |}.

Definition built (s : CircuitSettings string string) : Breaker :=
  match fst (NewCircuitBreaker s) with
  | Some cb => cb
  | None =>
    {| Settings := s; LastFailureTime := zeroTime;
       FailureCount := 0; FailureRecord := [] |}
  end.

Definition fallbackContent : callableResponse string :=
  {| rContent := Some "Relying on a fallback cached content";
     rError := None |}.

Definition brokenFallback : callableResponse string :=
  {| rContent := None; rError := Some (Errorf "cache is cold") |}.

Definition healthServiceContent : callableResponse string :=
  {| rContent := Some "A health service gives a fast response";
     rError := None |}.

(** Some instant of the year 2026, in nanoseconds since the zero time. *)
Definition start : Time := 63900000000000000000.

Definition second : Duration := 1000000000.

(** A call at instant [t] to a service that is too slow: the timer
    fires, two seconds later. *)
Definition slowCall (t : Time) : CallEnv string :=
  {| now_pre := t;
     service_event := TimerFired;
     fallback_response := fallbackContent;
     now_failure := t + 2 * second;
     now_post := t + 2 * second |}.

(** A call at instant [t] to a service that answers at once. *)
Definition healthCall (t : Time) : CallEnv string :=
  {| now_pre := t;
     service_event := ResponseReceived healthServiceContent;
     fallback_response := fallbackContent;
     now_failure := t;
     now_post := t |}.

(** A call at instant [t] that returns at once, whatever it does. *)
Definition instantCall (t : Time) : CallEnv string :=
  {| now_pre := t;
     service_event := TimerFired;
     fallback_response := fallbackContent;
     now_failure := t;
     now_post := t |}.

(** The breaker after the service was too slow twice in a row, and the
    instant of the second failure. *)
Definition tripped : Breaker :=
  breaker (snd (Calls [slowCall start; slowCall (start + 2 * second)]
                      (fresh (built with_fallback)))).

Definition trippedAt : Time := start + 4 * second.

(** A breaker that recorded one failure and whose fallback was then
    taken away ([cb.Settings.Fallback = nil]). *)
Definition failedOnce : Breaker :=
  let cb := breaker (snd (Call (slowCall start)
                               (fresh (built with_fallback)))) in
  {| Settings := without_fallback;
     LastFailureTime := LastFailureTime cb;
     FailureCount := FailureCount cb;
     FailureRecord := FailureRecord cb |}.

(** The tripped breaker with its fallback taken away. *)
Definition trippedBare : Breaker :=
  {| Settings := without_fallback;
     LastFailureTime := LastFailureTime tripped;
     FailureCount := FailureCount tripped;
     FailureRecord := FailureRecord tripped |}.

(** A trial call, made four seconds after the breaker tripped, to a
    service that is still too slow. *)
Definition probe : CallEnv string := slowCall (trippedAt + 4 * second).

(** The longest elapsed time, in nanoseconds, whose product with
    [Millisecond] still fits in 64 bits is 9223372036854. *)
Definition overflowing : Duration := 9223372036855.

End Samples.

(** ** The fixtures of [fixtures.go] *)

Definition Second : Duration := 1000 * Millisecond.
Definition Minute : Duration := 60 * Second.

Module Fixtures.

Definition serviceTimedOutMessage : string := "Service timed out".
Definition fallbackDueToOpenStateMessage : string :=
  "Service was fallbacked due to open state".
Definition fallbackDueToErrorMessage : string :=
  "Service was fallbacked due to error".

(** [service] and [fallback] are Go function values, nil or not. *)
Definition createCircuitBreaker {Callable CircuitEvent : Type}
    (service fallback : option Callable)
  : option (CircuitBreaker Callable CircuitEvent) * option error :=
  NewCircuitBreaker
    {| Service := service;
       Fallback := fallback;
       Timeout := DefautTimeout;
       RetryTimePeriod := DefaultRetryTimePeriod;
       FailureThreshold := DefautlFailureThreshold;
       OnTrip := None;
       OnReset := None;
       OnStateChange := None |}.

Definition createCircuitBreakerWithNoFallback {Callable CircuitEvent : Type}
    (service : option Callable)
  : option (CircuitBreaker Callable CircuitEvent) * option error :=
  createCircuitBreaker service None.

Definition createCircuitBreakerWithNoService {Callable CircuitEvent : Type}
  : option (CircuitBreaker Callable CircuitEvent) * option error :=
  createCircuitBreaker None None.

(** One run of a callable: how long it sleeps, and what it returns. *)
Record Run : Type := {
  slept : Duration;
  returned : callableResponse string
}.

Definition contentOnly (content : string) : callableResponse string :=
  {| rContent := Some content; rError := None |}.

Definition fallbackContent : string := "Relying on a fallback cached content".

Definition fallback : Run :=
  {| slept := 0; returned := contentOnly fallbackContent |}.

Definition healthServiceContent : string :=
  "A health service gives a fast response".

Definition healthService : Run :=
  {| slept := 0; returned := contentOnly healthServiceContent |}.

Definition slowService : Run :=
  {| slept := 5 * Minute;
     returned := contentOnly "This is a veeery slooow response" |}.

Definition countdownToHealthContent : string :=
  "This is a health fast response".

(** [countdownToHealthService] reads and writes the package variable
    [countdownToHealth]: it is passed in and handed back. *)
Definition countdownToHealthService (countdownToHealth : Z) : Z * Run :=
  if countdownToHealth >? 0 then
    (Int64.wrap (countdownToHealth - 1),
     {| slept := 1 * Minute;
        returned := contentOnly "This is a slow response" |})
  else
    (countdownToHealth,
     {| slept := 0; returned := contentOnly countdownToHealthContent |}).

(** [n] calls of [countdownToHealthService], one after the other: the
    variable they leave and the runs, in order. *)
Fixpoint countdownRuns (n : nat) (countdownToHealth : Z) : Z * list Run :=
  match n with
  | O => (countdownToHealth, [])
  | S n' =>
    let (c, r) := countdownToHealthService countdownToHealth in
    let (c', rs) := countdownRuns n' c in
    (c', r :: rs)
  end.

End Fixtures.

(** ** The demonstration driver, [main.go] *)

Module Driver.

Definition nl : string := String (Ascii.ascii_of_nat 10) EmptyString.

(** The verbs [%t] and [%v], the latter for string content. *)
Definition fmt_t (b : bool) : string := if b then "true" else "false".

Definition fmt_v (res : option string) : string :=
  match res with
  | Some content => content
  | None => "<nil>"
  end.

(** The helpers, as the text they write to the standard output. *)
Definition printHead (head : string) : string :=
  nl ++ "###" ++ nl ++ head ++ nl.

Definition printResponse (res : option string) (fallbacked : bool)
    (err : option error) : string :=
  match err with
  | Some e => "ERROR: " ++ Error e ++ nl
  | None =>
    "CONTENT: " ++ fmt_v res ++ " (fallbacked=" ++ fmt_t fallbacked ++ ")"
    ++ nl
  end.

Definition printState (st : CircuitState) : string :=
  "--- circuit state (" ++ ToString st ++ ") ---" ++ nl.

Definition printStateChanged (st : CircuitState) : string :=
  "--- circuit state changed (" ++ ToString st ++ ") ---" ++ nl.

Definition printTripped (fc : Z) : string :=
  "--- circuit tripped (" ++ fmt_d fc ++ " failures) ---" ++ nl.

Definition printResetted (fc : Z) : string :=
  "--- circuit resetted (" ++ fmt_d fc ++ " failures) ---" ++ nl.

(** [await] sleeps; this is what it prints. *)
Definition await : string := "--- awaiting 3 seconds ---" ++ nl.

(** What one turn of a loop of [main] observes: the call, the clock the
    state-change hook reads, and the clock [printState] reads after
    [await]. *)
Record Turn : Type := {
  call : CallEnv string;
  now_hook : Time;
  now_await : Time
}.

(** What the hooks [main] sets print when they fire: they read the
    breaker the call has just updated. *)
Definition hookLine (now : Time) (cb : CircuitBreaker string string)
    (e : Event) : string :=
  match e with
  | OnStateChangeFired => printStateChanged (State now cb)
  | OnTripFired => printTripped (FailureCount cb)
  | OnResetFired => printResetted (FailureCount cb)
  | ServiceInvoked | FallbackInvoked => ""
  end.

(** The body of the loops of [main], at index [i]: the call (during
    which the hooks print), the response, and at indexes 5 and 7 of the
    second and third loops the wait and the state. *)
Definition turn (awaits : bool) (i : Z) (t : Turn)
    (w : World string string) : string * World string string :=
  let w' := Call_world (call t) w in
  let hooks :=
    String.concat ""
      (map (hookLine (now_hook t) (breaker w')) (Call_events (call t) w)) in
  let response :=
    printResponse (Call_content (call t) w) (Call_fallbacked (call t) w)
                  (Call_error (call t) w) in
  let waited :=
    if awaits && ((i =? 5) || (i =? 7))
    then await ++ printState (State (now_await t) (breaker w'))
    else "" in
  (hooks ++ response ++ waited, w').

Fixpoint loop (awaits : bool) (i : Z) (ts : list Turn)
    (w : World string string) : string :=
  match ts with
  | [] => ""
  | t :: ts' =>
    let (out, w') := turn awaits i t w in
    out ++ loop awaits (i + 1) ts' w'
  end.

(** The breaker of the third part of [main]: built by
    [createCircuitBreaker], then given its three hooks. *)
Definition withHooks (cb : CircuitBreaker string string)
  : CircuitBreaker string string :=
  {| Settings :=
       {| Service := Service (Settings cb);
          Fallback := Fallback (Settings cb);
          Timeout := Timeout (Settings cb);
          RetryTimePeriod := RetryTimePeriod (Settings cb);
          FailureThreshold := FailureThreshold (Settings cb);
          OnTrip := Some "printTripped";
          OnReset := Some "printResetted";
          OnStateChange := Some "printStateChanged" |};
     LastFailureTime := LastFailureTime cb;
     FailureCount := FailureCount cb;
     FailureRecord := FailureRecord cb |}.

Definition intermittentBreaker : CircuitBreaker string string :=
  match fst (Fixtures.createCircuitBreaker
               (Some "countdownToHealthService") (Some "fallback")) with
  | Some cb => withHooks cb
  | None => withHooks (Samples.built Samples.with_fallback)
  end.

(** A turn whose call starts at [t] and lasts [d]; every clock read
    after the call gives the instant it ends, but the one after [await],
    four seconds later. *)
Definition turnAt (t : Time) (d : Duration) (ev : SelectEvent string)
  : Turn :=
  {| call := {| now_pre := t;
                service_event := ev;
                fallback_response := Fixtures.returned Fixtures.fallback;
                now_failure := t + d;
                now_post := t + d |};
     now_hook := t + d;
     now_await := t + d + 4 * Second |}.

(** The ten turns of the third part of [main], on a clock too coarse to
    tell apart the instants of a call that does not wait: two calls that
    time out after two seconds, four rejected at once, the wait, a trial
    that times out, one more rejected, the wait, and two healthy
    calls. *)
Definition intermittentTurns : list Turn :=
  let t0 := Samples.start in
  let timeout := 2 * Second in
  let healthy :=
    ResponseReceived
      (Fixtures.contentOnly Fixtures.countdownToHealthContent) in
  [ turnAt t0 timeout TimerFired;
    turnAt (t0 + 2 * Second) timeout TimerFired;
    turnAt (t0 + 4 * Second) 0 TimerFired;
    turnAt (t0 + 4 * Second) 0 TimerFired;
    turnAt (t0 + 4 * Second) 0 TimerFired;
    turnAt (t0 + 4 * Second) 0 TimerFired;
    turnAt (t0 + 8 * Second) timeout TimerFired;
    turnAt (t0 + 10 * Second) 0 TimerFired;
    turnAt (t0 + 14 * Second) 0 healthy;
    turnAt (t0 + 14 * Second) 0 healthy ].

End Driver.

(** * Properties *)

(** ** Wrap-around arithmetic *)

Lemma wrap_range z : Int64.in_range (Int64.wrap z).
Proof.
  unfold Int64.in_range, Int64.wrap, Int64.min, Int64.max.
  pose proof (Z.mod_pos_bound (z + 2 ^ 63) (2 ^ 64) ltac:(lia)). lia.
Qed.

Lemma wrap_small z : Int64.in_range z -> Int64.wrap z = z.
Proof.
  unfold Int64.in_range, Int64.wrap, Int64.min, Int64.max. intros H.
  rewrite Z.mod_small by lia. lia.
Qed.

Lemma wrap_succ_wrap a : Int64.wrap (Int64.wrap a + 1) = Int64.wrap (a + 1).
Proof.
  unfold Int64.wrap.
  replace ((a + 2 ^ 63) mod 2 ^ 64 - 2 ^ 63 + 1 + 2 ^ 63)
    with ((a + 2 ^ 63) mod 2 ^ 64 + 1) by lia.
  replace (a + 1 + 2 ^ 63) with ((a + 2 ^ 63) + 1) by lia.
  rewrite Zplus_mod_idemp_l. reflexivity.
Qed.

Lemma Sub_self t : Sub t t = 0.
Proof.
  unfold Sub, minDuration, maxDuration, Int64.min, Int64.max.
  rewrite Z.sub_diag. reflexivity.
Qed.

Lemma Sub_small t u :
  Int64.in_range (t - u) -> Sub t u = t - u.
Proof.
  unfold Int64.in_range, Sub, minDuration, maxDuration. intros [Hlo Hhi].
  destruct (Z.ltb_spec (t - u) Int64.min); [lia|].
  destruct (Z.ltb_spec Int64.max (t - u)); [lia|]. reflexivity.
Qed.

Section Facts.

Variable Content : Type.
Variable Callable : Type.
Variable CircuitEvent : Type.

Let Breaker := CircuitBreaker Callable CircuitEvent.
Let W := World Callable CircuitEvent.
Let Env := CallEnv Content.

Implicit Types (cb : Breaker) (w : W) (env : Env).

(** ** State derivation *)

Lemma State_closed_iff now cb :
  State now cb = IsClosed <->
  FailureCount cb < FailureThreshold (Settings cb).
Proof.
  unfold State.
  destruct (Z.geb_spec (FailureCount cb) (FailureThreshold (Settings cb))).
  - split; [|lia]. destruct (_ >? _); discriminate.
  - split; [lia|reflexivity].
Qed.

Lemma State_valid now cb : State now cb <> IsInvalid.
Proof.
  unfold State. destruct (_ >=? _); [destruct (_ >? _)|]; discriminate.
Qed.

Lemma State_open_iff now cb :
  State now cb = IsOpen <->
  FailureThreshold (Settings cb) <= FailureCount cb /\
  Int64.mul (Sub now (LastFailureTime cb)) Millisecond
    <= RetryTimePeriod (Settings cb).
Proof.
  unfold State.
  destruct (Z.geb_spec (FailureCount cb) (FailureThreshold (Settings cb)));
    cbv zeta.
  - destruct (Z.gtb_spec
                (Int64.mul (Sub now (LastFailureTime cb)) Millisecond)
                (RetryTimePeriod (Settings cb)));
      split; try discriminate; try reflexivity; lia.
  - split; [discriminate|lia].
Qed.

(** ** The ledger and the notifier, one method at a time *)

Lemma recordFailure_run now err w :
  recordFailure now err w =
  (tt, {| breaker := recorded now err (breaker w); trace := trace w |}).
Proof. destruct err; reflexivity. Qed.

Lemma resetState_run w :
  resetState w =
  (tt, {| breaker := cleared (breaker w); trace := trace w |}).
Proof. reflexivity. Qed.

Lemma fire_run (hook : option CircuitEvent) e w :
  fire _ _ hook e w =
  (tt, {| breaker := breaker w; trace := (trace w ++ fired hook e)%list |}).
Proof.
  destruct hook; cbn; [reflexivity|].
  rewrite app_nil_r. destruct w; reflexivity.
Qed.

Lemma notifyState_run pre post w :
  notifyState pre post w =
  (tt, {| breaker := breaker w;
          trace := (trace w
                    ++ hook_events (Settings (breaker w)) pre post)%list |}).
Proof.
  unfold notifyState, hook_events, CircuitState_eqb, bind, getCB.
  destruct (CircuitState_eq_dec post pre); cbn.
  - rewrite app_nil_r. destruct w; reflexivity.
  - rewrite fire_run.
    destruct post; unfold ret; rewrite ?fire_run; cbn [breaker trace];
      rewrite ?app_nil_r, ?app_assoc; reflexivity.
Qed.

(** ** The dispatch *)

(** The events [selectiveCall] adds: the service is invoked unless the
    state is open, the fallback when it is set and wanted. *)
Lemma selectiveCall_world env st w :
  exists evs,
    snd (selectiveCall env st w)
    = {| breaker := breaker w; trace := (trace w ++ evs)%list |}
    /\ hooks_of evs = []
    /\ (In ServiceInvoked evs <-> st = IsClosed \/ st = IsHalfOpen)
    /\ (In FallbackInvoked evs <->
        snd (fst (fst (selectiveCall env st w))) = true).
Proof.
  unfold selectiveCall, callService, mayCallFallback, bind, ret, getCB, emit.
  destruct st; cbn [breaker trace fst snd].
  - exists []. rewrite app_nil_r. destruct w; cbn. intuition congruence.
  - destruct (service_event env) as [res|];
      [destruct (rError res); [|destruct (rContent res)]|];
      cbn [breaker trace fst snd];
      try destruct (Fallback (Settings (breaker w)));
      cbn [breaker trace fst snd];
      try destruct (rError (fallback_response env));
      cbn [breaker trace fst snd]; rewrite <- ?app_assoc;
      eexists; (split; [reflexivity|]); cbn; intuition congruence.
  - destruct (service_event env) as [res|];
      [destruct (rError res); [|destruct (rContent res)]|];
      cbn [breaker trace fst snd];
      try destruct (Fallback (Settings (breaker w)));
      cbn [breaker trace fst snd];
      try destruct (rError (fallback_response env));
      cbn [breaker trace fst snd]; rewrite <- ?app_assoc;
      eexists; (split; [reflexivity|]); cbn; intuition congruence.
  - destruct (Fallback (Settings (breaker w)));
      try destruct (rError (fallback_response env));
      cbn [breaker trace fst snd].
    all: first
      [ solve [eexists; (split; [reflexivity|]); cbn; intuition congruence]
      | exists []; rewrite app_nil_r; destruct w; cbn;
        intuition congruence ].
Qed.

Lemma selectiveCall_breaker env st w :
  breaker (snd (selectiveCall env st w)) = breaker w.
Proof.
  destruct (selectiveCall_world env st w) as (evs & -> & _). reflexivity.
Qed.

(** [Call], step by step: the dispatch, then the ledger, then the
    notifier. *)
Lemma Call_run env w :
  let r := selectiveCall env (preState env w) w in
  let fallbacked := snd (fst (fst r)) in
  let err := snd (fst r) in
  let cb' := if fallbacked then recorded (now_failure env) err (breaker w)
             else cleared (breaker w) in
  Call env w
  = (fst r,
     {| breaker := cb';
        trace := (trace (snd r)
                  ++ hook_events (Settings (breaker w)) (preState env w)
                       (State (now_post env) cb'))%list |}).
Proof.
  cbv zeta. unfold Call, preState, bind, getCB.
  pose proof (selectiveCall_breaker env (State (now_pre env) (breaker w)) w)
    as Hb.
  destruct (selectiveCall env (State (now_pre env) (breaker w)) w)
    as [[[res fallbacked] err] w1].
  cbn [fst snd] in *.
  destruct fallbacked.
  - rewrite recordFailure_run, notifyState_run. cbn [breaker trace].
    rewrite Hb. reflexivity.
  - rewrite resetState_run, notifyState_run. cbn [breaker trace].
    rewrite Hb. reflexivity.
Qed.

Lemma Call_fallbacked_eq env w :
  Call_fallbacked env w
  = snd (fst (fst (selectiveCall env (preState env w) w))).
Proof. unfold Call_fallbacked. rewrite Call_run. reflexivity. Qed.

Lemma Call_error_eq env w :
  Call_error env w = snd (fst (selectiveCall env (preState env w) w)).
Proof. unfold Call_error. rewrite Call_run. reflexivity. Qed.

Lemma Call_content_eq env w :
  Call_content env w
  = fst (fst (fst (selectiveCall env (preState env w) w))).
Proof. unfold Call_content. rewrite Call_run. reflexivity. Qed.

(** The ledger after a call: a failure recorded when the call relied on
    the fallback, a reset otherwise. *)
Lemma Call_breaker env w :
  breaker (Call_world env w)
  = if Call_fallbacked env w
    then recorded (now_failure env) (Call_error env w) (breaker w)
    else cleared (breaker w).
Proof.
  rewrite Call_fallbacked_eq, Call_error_eq.
  unfold Call_world. rewrite Call_run. reflexivity.
Qed.

Lemma Call_settings env w :
  Settings (breaker (Call_world env w)) = Settings (breaker w).
Proof.
  rewrite Call_breaker. destruct (Call_fallbacked env w); reflexivity.
Qed.

Lemma skipn_length_app (A : Type) (l l' : list A) :
  skipn (List.length l) (l ++ l')%list = l'.
Proof. induction l; cbn; [reflexivity|assumption]. Qed.

(** The events of a call: those of the dispatch, then the hooks. *)
Lemma Call_events_split env w :
  exists evs,
    Call_events env w
    = (evs ++ hook_events (Settings (breaker w)) (preState env w)
                          (newState env w))%list
    /\ trace (Call_world env w) = (trace w ++ Call_events env w)%list
    /\ hooks_of evs = []
    /\ (In ServiceInvoked evs <->
        preState env w = IsClosed \/ preState env w = IsHalfOpen)
    /\ (In FallbackInvoked evs <-> Call_fallbacked env w = true).
Proof.
  destruct (selectiveCall_world env (preState env w) w)
    as (evs & Hw & Hh & Hs & Hf).
  exists evs.
  rewrite Call_fallbacked_eq.
  unfold Call_events, newState.
  rewrite Call_breaker, Call_fallbacked_eq, Call_error_eq.
  unfold Call_world. rewrite Call_run. cbn [snd breaker trace].
  rewrite Hw. cbn [trace].
  rewrite <- app_assoc, skipn_length_app. auto.
Qed.

(** Case analysis on what the dispatch meets: the select of
    [callService], the fallback setting, the fallback's own error. *)
Ltac dispatch env w :=
  unfold selectiveCall, callService, mayCallFallback, bind, ret, getCB, emit;
  cbn [breaker trace fst snd];
  try (let res := fresh "res" in
       destruct (service_event env) as [res|] eqn:?;
       [destruct (rError res) eqn:?; [|destruct (rContent res) eqn:?]|]);
  cbn [breaker trace fst snd];
  try destruct (Fallback (Settings (breaker w))) eqn:?;
  cbn [breaker trace fst snd];
  try destruct (rError (fallback_response env)) eqn:?;
  cbn [breaker trace fst snd].

(** ** The constructor *)

(** C9: the constructor returns an error exactly when the service is
    absent; otherwise it returns a breaker (and no error) whose timeout,
    retry period and failure threshold are the given ones, or the
    defaults where the given ones are zero; every other setting is kept,
    and the ledger starts empty. *)
Theorem NewCircuitBreaker_validates_and_defaults
    (settings : CircuitSettings Callable CircuitEvent) :
  (snd (NewCircuitBreaker settings) <> None <-> Service settings = None)
  /\ (Service settings = None -> fst (NewCircuitBreaker settings) = None)
  /\ (Service settings <> None ->
      exists cb,
        NewCircuitBreaker settings = (Some cb, None)
        /\ Timeout (Settings cb)
           = (if Timeout settings =? 0 then DefautTimeout
              else Timeout settings)
        /\ RetryTimePeriod (Settings cb)
           = (if RetryTimePeriod settings =? 0 then DefaultRetryTimePeriod
              else RetryTimePeriod settings)
        /\ FailureThreshold (Settings cb)
           = (if FailureThreshold settings =? 0
              then DefautlFailureThreshold
              else FailureThreshold settings)
        /\ Service (Settings cb) = Service settings
        /\ Fallback (Settings cb) = Fallback settings
        /\ OnTrip (Settings cb) = OnTrip settings
        /\ OnReset (Settings cb) = OnReset settings
        /\ OnStateChange (Settings cb) = OnStateChange settings
        /\ FailureCount cb = 0
        /\ FailureRecord cb = []
        /\ LastFailureTime cb = zeroTime).
Proof.
  unfold NewCircuitBreaker.
  destruct settings as [svc fb timeout retry threshold trip reset change].
  cbn [Service Timeout RetryTimePeriod FailureThreshold Fallback
       OnTrip OnReset OnStateChange].
  destruct svc as [svc|]; cbn [fst snd].
  - split; [split; congruence|]. split; [discriminate|]. intros _.
    eexists. split; [reflexivity|].
    cbn [Settings FailureCount FailureRecord LastFailureTime].
    destruct (timeout =? 0); cbn;
      destruct (retry =? 0); cbn;
      destruct (threshold =? 0); cbn;
      repeat split; reflexivity.
  - split; [split; congruence|]. split; [reflexivity|congruence].
Qed.

(** ** The bounded invocation *)

(** C8: [callService] classifies what its select observes.  A response
    with an error gives that error wrapped as a calling error; a
    response with neither error nor content gives the failure "Service
    respond is nil", not a success; a response with content and no
    error gives the content and no error; the timer gives a calling
    error whose message names the configured timeout.  In every case
    the service is invoked once and the breaker is left as it was. *)
Theorem callService_classifies (ev : SelectEvent Content) w :
  (forall res e,
      ev = ResponseReceived res -> rError res = Some e ->
      fst (callService ev w) = (None, Some (CallingError e)))
  /\ (forall res,
      ev = ResponseReceived res -> rError res = None ->
      rContent res = None ->
      fst (callService ev w)
      = (None, Some (CallingError (Errorf "Service respond is nil"))))
  /\ (forall res c,
      ev = ResponseReceived res -> rError res = None ->
      rContent res = Some c ->
      fst (callService ev w) = (Some c, None))
  /\ (ev = TimerFired ->
      exists err,
        fst (callService ev w) = (None, Some err)
        /\ Error err
           = "Error when calling service: Service timed out after "
             ++ fmt_d (Timeout (Settings (breaker w))) ++ " milliseconds")
  /\ snd (callService ev w)
     = {| breaker := breaker w;
          trace := (trace w ++ [ServiceInvoked])%list |}.
Proof.
  unfold callService, bind, ret, getCB, emit. cbn [breaker trace fst snd].
  repeat split.
  - intros res e -> He. rewrite He. reflexivity.
  - intros res -> He Hc. rewrite He, Hc. reflexivity.
  - intros res c -> He Hc. rewrite He, Hc. reflexivity.
  - intros ->. eexists. split; reflexivity.
  - destruct ev as [res|]; [|reflexivity].
    destruct (rError res); [|destruct (rContent res)]; reflexivity.
Qed.

(** ** Errors returned by a call *)

(** C4: [Call] returns a nil error exactly on a genuine success: the
    breaker was not open, the service was invoked and its response
    carried content and no error.  Whenever the call relied on the
    fallback, or was rejected because the breaker was open, the error
    is not nil. *)
Theorem Call_error_nil_iff_genuine_success env w :
  (Call_error env w = None <-> genuine_success env w)
  /\ (Call_fallbacked env w = true -> Call_error env w <> None)
  /\ (preState env w = IsOpen -> Call_error env w <> None)
  /\ (genuine_success env w ->
      In ServiceInvoked (Call_events env w)
      /\ Call_fallbacked env w = false
      /\ exists res,
          service_event env = ResponseReceived res
          /\ Call_content env w = rContent res
          /\ rContent res <> None).
Proof.
  destruct (Call_events_split env w) as (evs & Hev & _ & _ & Hsvc & _).
  rewrite Hev, Call_error_eq, Call_fallbacked_eq, Call_content_eq.
  unfold genuine_success, valid_response.
  pose proof (State_valid (now_pre env) (breaker w)) as Hvalid.
  fold (preState env w) in Hvalid.
  assert (Hin : preState env w = IsClosed \/ preState env w = IsHalfOpen ->
                In ServiceInvoked
                   (evs ++ hook_events (Settings (breaker w))
                              (preState env w) (newState env w))%list)
    by (intros H; apply in_or_app; left; apply Hsvc; exact H).
  destruct (preState env w) eqn:Hpre; [congruence| | |].
  all: dispatch env w.
  all: repeat match goal with
         | |- _ /\ _ => split
         | |- _ <-> _ => split
         | |- _ <> _ => intro
         | |- _ -> _ => intro
         | H : _ /\ _ |- _ => destruct H
         | H : exists _, _ |- _ => destruct H
         | H : ResponseReceived _ = ResponseReceived _ |- _ =>
           injection H as H; subst
         end.
  all: try congruence.
  all: try (apply Hin; auto; fail).
  all: solve [repeat eexists; eauto; congruence].
Qed.

(** ** Calls on an open breaker *)

Lemma hook_events_hooks (s : CircuitSettings Callable CircuitEvent)
    pre post e :
  In e (hook_events s pre post) -> is_hook e = true.
Proof.
  unfold hook_events, fired.
  destruct (CircuitState_eq_dec post pre); [intros []|].
  destruct (OnStateChange s), (OnTrip s), (OnReset s), post; cbn;
    intuition (subst; reflexivity).
Qed.

Lemma hooks_of_hook_events (s : CircuitSettings Callable CircuitEvent)
    pre post :
  hooks_of (hook_events s pre post) = hook_events s pre post.
Proof.
  unfold hook_events, fired.
  destruct (CircuitState_eq_dec post pre); [reflexivity|].
  destruct (OnStateChange s), (OnTrip s), (OnReset s), post; reflexivity.
Qed.

(** When the call relies on the fallback: a fallback is set, and the
    breaker was open or the service failed. *)
Lemma Call_fallbacked_spec env w :
  Call_fallbacked env w
  = match Fallback (Settings (breaker w)) with
    | None => false
    | Some _ =>
      match preState env w with
      | IsOpen => true
      | IsClosed | IsHalfOpen => service_failed (service_event env)
      | IsInvalid => false
      end
    end.
Proof.
  rewrite Call_fallbacked_eq. unfold service_failed.
  destruct (preState env w); dispatch env w; reflexivity.
Qed.

(** C5: when the state derived before the call is open, the service is
    not invoked.  With a fallback set, the fallback is invoked and the
    call returns its content, marked as fallbacked, with the error
    "Service was fallbacked due to open state", extended with the
    fallback's own error message when it has one.  With no fallback
    set, the call returns no content, not fallbacked, and that same
    rejection error. *)
Theorem Call_open_rejects env w :
  preState env w = IsOpen ->
  ~ In ServiceInvoked (Call_events env w)
  /\ (Fallback (Settings (breaker w)) <> None ->
      In FallbackInvoked (Call_events env w)
      /\ Call_content env w = rContent (fallback_response env)
      /\ Call_fallbacked env w = true
      /\ Call_error env w
         = Some (Errorf
             match rError (fallback_response env) with
             | Some e =>
               "Service was fallbacked due to open state but failed too: "
               ++ Error e
             | None => "Service was fallbacked due to open state"
             end))
  /\ (Fallback (Settings (breaker w)) = None ->
      ~ In FallbackInvoked (Call_events env w)
      /\ Call_content env w = None
      /\ Call_fallbacked env w = false
      /\ Call_error env w
         = Some (Errorf "Service was fallbacked due to open state")).
Proof.
  intros Hpre.
  destruct (Call_events_split env w) as (evs & Hev & _ & _ & Hsvc & Hfb).
  assert (Hno : forall e, is_hook e = false ->
                In e (Call_events env w) -> In e evs).
  { intros e He Hin. rewrite Hev in Hin.
    apply in_app_or in Hin as [Hin|Hin]; [exact Hin|].
    apply hook_events_hooks in Hin. congruence. }
  assert (Hyes : forall e, In e evs -> In e (Call_events env w))
    by (intros e Hin; rewrite Hev; apply in_or_app; left; exact Hin).
  split; [|split].
  - intros Hin. apply Hno in Hin; [|reflexivity].
    apply Hsvc in Hin. rewrite Hpre in Hin.
    destruct Hin; discriminate.
  - intros Hset.
    assert (Hf : Call_fallbacked env w = true).
    { rewrite Call_fallbacked_spec, Hpre.
      destruct (Fallback (Settings (breaker w))); congruence. }
    split; [apply Hyes, Hfb, Hf|].
    split; [|split; [exact Hf|]].
    + rewrite Call_content_eq, Hpre. dispatch env w; congruence.
    + rewrite Call_error_eq, Hpre. dispatch env w; congruence.
  - intros Hnone.
    assert (Hf : Call_fallbacked env w = false)
      by (rewrite Call_fallbacked_spec, Hnone; reflexivity).
    split.
    + intros Hin. apply Hno in Hin; [|reflexivity].
      apply Hfb in Hin. congruence.
    + split; [|split; [exact Hf|]].
      * rewrite Call_content_eq, Hpre. dispatch env w; congruence.
      * rewrite Call_error_eq, Hpre. dispatch env w; congruence.
Qed.

(** ** Hooks *)

Lemma hooks_fired_eq env w :
  hooks_fired env w
  = hook_events (Settings (breaker w)) (preState env w) (newState env w).
Proof.
  destruct (Call_events_split env w) as (evs & Hev & _ & Hh & _).
  unfold hooks_fired, hooks_of in *.
  rewrite Hev, filter_app, Hh. apply hooks_of_hook_events.
Qed.

(** C6: the hooks a call fires.  None fires when the state derived
    after the call is the one derived before it.  The state-change hook
    fires exactly when it is set and the two states differ; the trip
    hook exactly when it is set, the new state is open and the old one
    was not; the reset hook exactly when it is set, the new state is
    closed and the old one was not.  When the state-change hook fires,
    it fires first; no hook fires twice; and the hooks come after
    every invocation of the service or the fallback. *)
Theorem Call_fires_hooks env w :
  (preState env w = newState env w -> hooks_fired env w = [])
  /\ (In OnStateChangeFired (hooks_fired env w) <->
      registered (OnStateChange (Settings (breaker w)))
      /\ newState env w <> preState env w)
  /\ (In OnTripFired (hooks_fired env w) <->
      registered (OnTrip (Settings (breaker w)))
      /\ newState env w = IsOpen /\ preState env w <> IsOpen)
  /\ (In OnResetFired (hooks_fired env w) <->
      registered (OnReset (Settings (breaker w)))
      /\ newState env w = IsClosed /\ preState env w <> IsClosed)
  /\ (In OnStateChangeFired (hooks_fired env w) ->
      exists rest, hooks_fired env w = OnStateChangeFired :: rest)
  /\ NoDup (hooks_fired env w)
  /\ (exists evs,
        Call_events env w = (evs ++ hooks_fired env w)%list
        /\ hooks_of evs = []).
Proof.
  pose proof (State_valid (now_pre env) (breaker w)) as Hpre.
  pose proof (State_valid (now_post env) (breaker (Call_world env w)))
    as Hpost.
  fold (preState env w) in Hpre. fold (newState env w) in Hpost.
  repeat match goal with |- _ /\ _ => split end.
  7: { destruct (Call_events_split env w) as (evs & Hev & _ & Hh & _).
       exists evs. rewrite hooks_fired_eq. auto. }
  all: rewrite hooks_fired_eq; unfold hook_events, fired, registered.
  all: destruct (CircuitState_eq_dec (newState env w) (preState env w))
      as [Heq|Hne];
    [ rewrite ?Heq; cbn
    | destruct (newState env w), (preState env w); try congruence;
      destruct (OnStateChange (Settings (breaker w))),
               (OnTrip (Settings (breaker w))),
               (OnReset (Settings (breaker w))); cbn ].
  all: try solve [ intuition congruence
                 | intros; eexists; reflexivity
                 | constructor
                 | constructor; [cbn; intuition congruence|constructor]
                 | constructor;
                   [ cbn; intuition congruence
                   | constructor; [cbn; intuition congruence
                                  |constructor] ] ].
Qed.

(** ** What a call does to the ledger *)

Lemma service_failed_false_iff (ev : SelectEvent Content) :
  service_failed ev = false <-> valid_response ev.
Proof.
  unfold service_failed, valid_response. split.
  - destruct ev as [res|]; [|discriminate].
    destruct (rError res) eqn:He; [discriminate|].
    destruct (rContent res) eqn:Hc; [|discriminate].
    intros _. exists res, c. auto.
  - intros (res & c & -> & He & Hc). rewrite He, Hc. reflexivity.
Qed.

Lemma Call_fallbacked_error env w :
  Call_fallbacked env w = true -> Call_error env w <> None.
Proof.
  rewrite Call_fallbacked_eq, Call_error_eq.
  destruct (preState env w); dispatch env w; congruence.
Qed.

(** X1: with a fallback set, a call that is rejected because the breaker
    is open, or whose service fails, relies on the fallback and records
    one failure: the failure count goes up by one, the instant of the
    failure is the one [recordFailure] read, and the message of the error
    the call returns is appended to the record. *)
Theorem Call_with_fallback_records_failure env w :
  Fallback (Settings (breaker w)) <> None ->
  preState env w = IsOpen \/ service_failed (service_event env) = true ->
  Call_fallbacked env w = true
  /\ FailureCount (breaker (Call_world env w))
     = Int64.add (FailureCount (breaker w)) 1
  /\ LastFailureTime (breaker (Call_world env w)) = now_failure env
  /\ exists e,
      Call_error env w = Some e
      /\ FailureRecord (breaker (Call_world env w))
         = (FailureRecord (breaker w) ++ [Error e])%list.
Proof.
  intros Hfb Hcase.
  assert (Hf : Call_fallbacked env w = true).
  { rewrite Call_fallbacked_spec.
    destruct (Fallback (Settings (breaker w))); [|congruence].
    pose proof (State_valid (now_pre env) (breaker w)) as Hv.
    fold (preState env w) in Hv.
    destruct Hcase as [Ho|Hs]; [rewrite Ho; reflexivity|].
    destruct (preState env w); congruence. }
  pose proof (Call_fallbacked_error env w Hf) as He.
  rewrite Call_breaker, Hf.
  destruct (Call_error env w) as [e|]; [|congruence].
  repeat split. exists e. split; reflexivity.
Qed.

(** The ledger is reset exactly when the call does not rely on the
    fallback, that is, when no fallback is set or the call is a genuine
    success. *)
Lemma Call_resets_unless_fallbacked env w :
  (Call_fallbacked env w = false <->
   Fallback (Settings (breaker w)) = None \/ genuine_success env w)
  /\ (Call_fallbacked env w = false ->
      breaker (Call_world env w) = cleared (breaker w))
  /\ (Call_fallbacked env w = true ->
      breaker (Call_world env w)
      = recorded (now_failure env) (Call_error env w) (breaker w)).
Proof.
  split; [|split; intros Hf; rewrite Call_breaker, Hf; reflexivity].
  rewrite Call_fallbacked_spec. unfold genuine_success.
  rewrite <- service_failed_false_iff.
  pose proof (State_valid (now_pre env) (breaker w)) as Hv.
  fold (preState env w) in Hv.
  destruct (Fallback (Settings (breaker w))); [|tauto].
  destruct (preState env w); try congruence;
    intuition congruence.
Qed.

(** X2: a call that is a genuine success does not rely on the fallback
    and resets the ledger: afterwards the failure count is 0, the failure
    record is empty and the instant of the last failure is the zero
    time, so the state derived next is closed when the threshold is
    positive. *)
Theorem Call_success_resets env w :
  genuine_success env w ->
  Call_fallbacked env w = false
  /\ FailureCount (breaker (Call_world env w)) = 0
  /\ FailureRecord (breaker (Call_world env w)) = []
  /\ LastFailureTime (breaker (Call_world env w)) = zeroTime
  /\ (0 < FailureThreshold (Settings (breaker w)) ->
      newState env w = IsClosed).
Proof.
  intros Hok.
  assert (Hf : Call_fallbacked env w = false)
    by (apply Call_resets_unless_fallbacked; right; exact Hok).
  unfold newState. rewrite Call_breaker, Hf.
  repeat split. intros Hpos. apply State_closed_iff. exact Hpos.
Qed.

(** X3: the state is closed exactly while the failure count is below the
    threshold, whatever the clock says; [State] never yields a value
    other than closed, half-open and open. *)
Theorem State_closed_below_threshold now cb :
  (State now cb = IsClosed <->
   FailureCount cb < FailureThreshold (Settings cb))
  /\ (State now cb = IsOpen \/ State now cb = IsHalfOpen <->
      FailureThreshold (Settings cb) <= FailureCount cb)
  /\ State now cb <> IsInvalid.
Proof.
  split; [apply State_closed_iff|]. split; [|apply State_valid].
  unfold State.
  destruct (Z.geb_spec (FailureCount cb) (FailureThreshold (Settings cb)));
    cbv zeta.
  - destruct (_ >? _); (split; [intros _; lia|intros _; auto]).
  - split; [intros [Hs|Hs]; discriminate Hs|lia].
Qed.

(** ** A trial call that fails *)

(** C7, as the code has it: on a breaker with a fallback whose failure
    count equals the threshold, a call made in the half-open state whose
    service fails raises the failure count by one, past the threshold,
    stamps the failure with the instant [recordFailure] read, and
    appends one entry to the record.  The state derived afterwards is
    never closed; it is open when it is derived at the very instant of
    the stamp and the retry period is not negative. *)
Theorem Call_probing_failure_records env w :
  Fallback (Settings (breaker w)) <> None ->
  FailureCount (breaker w) = FailureThreshold (Settings (breaker w)) ->
  Int64.min <= FailureCount (breaker w) < Int64.max ->
  preState env w = IsHalfOpen ->
  service_failed (service_event env) = true ->
  FailureCount (breaker (Call_world env w))
  = FailureThreshold (Settings (breaker w)) + 1
  /\ LastFailureTime (breaker (Call_world env w)) = now_failure env
  /\ List.length (FailureRecord (breaker (Call_world env w)))
     = S (List.length (FailureRecord (breaker w)))
  /\ newState env w <> IsClosed
  /\ (now_post env = now_failure env ->
      0 <= RetryTimePeriod (Settings (breaker w)) ->
      newState env w = IsOpen).
Proof.
  intros Hfb Hcount Hrange Hpre Hfail.
  assert (Hf : Call_fallbacked env w = true).
  { rewrite Call_fallbacked_spec, Hpre, Hfail.
    destruct (Fallback (Settings (breaker w))); congruence. }
  assert (Hadd : Int64.add (FailureCount (breaker w)) 1
                 = FailureCount (breaker w) + 1).
  { unfold Int64.add. apply wrap_small.
    unfold Int64.in_range, Int64.min, Int64.max in *. lia. }
  unfold newState. rewrite Call_breaker, Hf.
  cbn [recorded FailureCount LastFailureTime FailureRecord Settings].
  rewrite Hadd, <- Hcount.
  split; [reflexivity|]. split; [reflexivity|].
  split; [rewrite length_app; cbn; lia|].
  split.
  - rewrite State_closed_iff.
    cbn [recorded FailureCount Settings]. lia.
  - intros Hnow Hretry. apply State_open_iff.
    cbn [recorded FailureCount LastFailureTime Settings].
    rewrite Hnow, Sub_self. unfold Int64.mul.
    rewrite Z.mul_0_l, wrap_small
      by (unfold Int64.in_range, Int64.min, Int64.max; lia).
    lia.
Qed.

(** ** The ledger across calls *)

Lemma recorded_keeps_ledger now err cb :
  FailureCount cb = Int64.wrap (Z.of_nat (List.length (FailureRecord cb))) ->
  FailureCount (recorded now err cb)
  = Int64.wrap (Z.of_nat (List.length (FailureRecord (recorded now err cb)))).
Proof.
  intros H. cbn [recorded FailureCount FailureRecord].
  unfold Int64.add. rewrite H, wrap_succ_wrap, length_app. cbn.
  f_equal. lia.
Qed.

Lemma Call_keeps_ledger env w :
  FailureCount (breaker w)
  = Int64.wrap (Z.of_nat (List.length (FailureRecord (breaker w)))) ->
  FailureCount (breaker (Call_world env w))
  = Int64.wrap
      (Z.of_nat (List.length (FailureRecord (breaker (Call_world env w))))).
Proof.
  intros H. rewrite Call_breaker.
  destruct (Call_fallbacked env w).
  - apply recorded_keeps_ledger, H.
  - reflexivity.
Qed.

Lemma Calls_step env (envs : list Env) w :
  snd (Calls (env :: envs) w) = snd (Calls envs (Call_world env w)).
Proof.
  unfold Call_world. cbn [Calls]. unfold bind.
  destruct (Call env w). reflexivity.
Qed.

Lemma Calls_keep_ledger (envs : list Env) w :
  FailureCount (breaker w)
  = Int64.wrap (Z.of_nat (List.length (FailureRecord (breaker w)))) ->
  FailureCount (breaker (snd (Calls envs w)))
  = Int64.wrap
      (Z.of_nat
         (List.length (FailureRecord (breaker (snd (Calls envs w)))))).
Proof.
  revert w. induction envs as [|env envs IH]; intros w H.
  - exact H.
  - rewrite Calls_step. apply IH, Call_keeps_ledger, H.
Qed.

Lemma Calls_keep_settings (envs : list Env) w :
  Settings (breaker (snd (Calls envs w))) = Settings (breaker w).
Proof.
  revert w. induction envs as [|env envs IH]; intros w.
  - reflexivity.
  - rewrite Calls_step, IH. apply Call_settings.
Qed.

(** The service of a breaker the constructor returned is set, and stays
    so across calls. *)
Lemma Calls_keep_service
    (settings : CircuitSettings Callable CircuitEvent) cb
    (envs : list Env) :
  fst (NewCircuitBreaker settings) = Some cb ->
  Service (Settings (after envs cb)) <> None.
Proof.
  intros Hnew. unfold after. rewrite Calls_keep_settings. cbn.
  unfold NewCircuitBreaker in Hnew.
  destruct settings as [svc fb timeout retry threshold trip reset change].
  cbn in Hnew. destruct svc; [|discriminate].
  injection Hnew as <-. cbn.
  destruct (timeout =? 0); cbn;
    destruct (retry =? 0); cbn;
    destruct (threshold =? 0); cbn; discriminate.
Qed.

(** C10: on a breaker the constructor returned, after any sequence of
    calls made one after the other, the failure count is the number of
    entries of the failure record, and is not negative.  (The count is
    a Go [int], so the statement is for records whose length fits in
    one, as the length of every slice does.) *)
Theorem failure_count_is_record_length
    (settings : CircuitSettings Callable CircuitEvent) cb
    (envs : list Env) :
  fst (NewCircuitBreaker settings) = Some cb ->
  Z.of_nat (List.length (FailureRecord (after envs cb))) <= Int64.max ->
  0 <= FailureCount (after envs cb)
  /\ FailureCount (after envs cb)
     = Z.of_nat (List.length (FailureRecord (after envs cb))).
Proof.
  intros Hnew Hlen.
  assert (H0 : FailureCount cb
               = Int64.wrap (Z.of_nat (List.length (FailureRecord cb)))).
  { unfold NewCircuitBreaker in Hnew.
    destruct (Service settings); [|discriminate].
    injection Hnew as <-. reflexivity. }
  unfold after in *.
  pose proof (Calls_keep_ledger envs (fresh cb) H0) as H.
  rewrite wrap_small in H
    by (unfold Int64.in_range, Int64.min, Int64.max in *; lia).
  lia.
Qed.

(** ** More on the dispatch: who is invoked, and what is returned *)

Lemma wrap_add_l a b : Int64.wrap (Int64.wrap a + b) = Int64.wrap (a + b).
Proof.
  unfold Int64.wrap.
  replace ((a + 2 ^ 63) mod 2 ^ 64 - 2 ^ 63 + b + 2 ^ 63)
    with ((a + 2 ^ 63) mod 2 ^ 64 + b) by lia.
  replace (a + b + 2 ^ 63) with ((a + 2 ^ 63) + b) by lia.
  rewrite Zplus_mod_idemp_l. reflexivity.
Qed.

Lemma preState_valid env w : preState env w <> IsInvalid.
Proof. apply State_valid. Qed.

Lemma selectiveCall_trace env st w :
  trace (snd (selectiveCall env st w))
  = (trace w
     ++ match st with
        | IsClosed | IsHalfOpen => [ServiceInvoked]
        | IsOpen | IsInvalid => []
        end
     ++ if snd (fst (fst (selectiveCall env st w)))
        then [FallbackInvoked] else [])%list.
Proof.
  destruct st; dispatch env w;
    rewrite <- ?app_assoc, ?app_nil_r; reflexivity.
Qed.

Lemma Call_error_none_iff env w :
  Call_error env w = None <-> genuine_success env w.
Proof.
  rewrite Call_error_eq. unfold genuine_success, valid_response.
  pose proof (preState_valid env w) as Hvalid.
  destruct (preState env w) eqn:Hpre; [congruence| | |].
  all: dispatch env w.
  all: repeat match goal with
         | |- _ /\ _ => split
         | |- _ <-> _ => split
         | |- _ <> _ => intro
         | |- _ -> _ => intro
         | H : _ /\ _ |- _ => destruct H
         | H : exists _, _ |- _ => destruct H
         | H : ResponseReceived _ = ResponseReceived _ |- _ =>
           injection H as H; subst
         end.
  all: try congruence.
  all: solve [repeat eexists; eauto; congruence].
Qed.

(** X4: a call relies on the fallback exactly when a fallback is set
    and either the breaker was open or the service failed.  The content
    of such a call is the content the fallback returned, whatever it
    is; a call that fails without relying on the fallback returns no
    content. *)
Theorem Call_fallbacked_iff env w :
  (Call_fallbacked env w = true <->
   Fallback (Settings (breaker w)) <> None
   /\ (preState env w = IsOpen
       \/ service_failed (service_event env) = true))
  /\ (Call_fallbacked env w = true ->
      Call_content env w = rContent (fallback_response env))
  /\ (Call_fallbacked env w = false -> Call_error env w <> None ->
      Call_content env w = None).
Proof.
  pose proof (preState_valid env w) as Hvalid.
  split; [|split].
  - rewrite Call_fallbacked_spec.
    destruct (Fallback (Settings (breaker w)));
      [|intuition congruence].
    destruct (preState env w); try congruence;
      intuition congruence.
  - rewrite Call_fallbacked_eq, Call_content_eq.
    destruct (preState env w); dispatch env w; congruence.
  - rewrite Call_fallbacked_eq, Call_error_eq, Call_content_eq.
    destruct (preState env w); dispatch env w; congruence.
Qed.

(** X5: what a call invokes, in order: the service once, unless the
    breaker was open; then the fallback once, if the call relies on it;
    then the hooks.  Nothing is invoked twice and nothing is retried. *)
Theorem Call_invokes_in_order env w :
  Call_events env w
  = (match preState env w with
     | IsClosed | IsHalfOpen => [ServiceInvoked]
     | IsOpen | IsInvalid => []
     end
     ++ (if Call_fallbacked env w then [FallbackInvoked] else [])
     ++ hooks_fired env w)%list.
Proof.
  rewrite hooks_fired_eq, Call_fallbacked_eq.
  unfold Call_events, newState.
  rewrite Call_breaker, Call_fallbacked_eq, Call_error_eq.
  unfold Call_world. rewrite Call_run. cbn [snd breaker trace].
  rewrite selectiveCall_trace, <- !app_assoc, skipn_length_app.
  reflexivity.
Qed.

(** X6: calls never touch the settings: after any sequence of calls
    they are the ones the breaker started with. *)
Theorem Calls_never_change_settings (envs : list Env) cb :
  Settings (after envs cb) = Settings cb.
Proof. unfold after. apply Calls_keep_settings. Qed.

(** ** Counting failures up to the threshold *)

Lemma Calls_count_failures (envs : list Env) w :
  Fallback (Settings (breaker w)) <> None ->
  Forall (fun env => service_failed (service_event env) = true) envs ->
  FailureCount (breaker (snd (Calls envs w)))
  = Int64.wrap (FailureCount (breaker w) + Z.of_nat (List.length envs))
  \/ envs = [].
Proof.
  revert w. induction envs as [|env envs IH]; intros w Hfb Hall;
    [right; reflexivity|left].
  inversion Hall as [|? ? Hfail Hrest]; subst.
  assert (Hf : Call_fallbacked env w = true).
  { rewrite Call_fallbacked_spec, Hfail.
    pose proof (preState_valid env w).
    destruct (Fallback (Settings (breaker w))); [|congruence].
    destruct (preState env w); congruence. }
  assert (Hc : FailureCount (breaker (Call_world env w))
               = Int64.wrap (FailureCount (breaker w) + 1))
    by (rewrite Call_breaker, Hf; reflexivity).
  rewrite Calls_step.
  destruct (IH (Call_world env w)) as [Hn| ->].
  - rewrite Call_settings. exact Hfb.
  - exact Hrest.
  - rewrite Hn, Hc, wrap_add_l. f_equal. cbn [List.length]. lia.
  - cbn [Calls ret snd List.length]. rewrite Hc. reflexivity.
Qed.

(** X7: on a breaker the constructor returned with a fallback, calls
    whose service fails each count as one failure, whether the service
    was tried or the call was rejected: after [n] of them in a row the
    failure count is [n], and the state is closed exactly while [n] is
    below the threshold. *)
Theorem consecutive_failures_trip
    (settings : CircuitSettings Callable CircuitEvent) cb
    (envs : list Env) :
  fst (NewCircuitBreaker settings) = Some cb ->
  Fallback settings <> None ->
  Forall (fun env => service_failed (service_event env) = true) envs ->
  Z.of_nat (List.length envs) <= Int64.max ->
  FailureCount (after envs cb) = Z.of_nat (List.length envs)
  /\ forall now,
      State now (after envs cb) = IsClosed <->
      Z.of_nat (List.length envs) < FailureThreshold (Settings cb).
Proof.
  intros Hnew Hfb Hall Hlen.
  assert (Hcb : FailureCount cb = 0
                /\ Fallback (Settings cb) = Fallback settings).
  { unfold NewCircuitBreaker in Hnew.
    destruct settings as [svc fb timeout retry threshold trip reset change].
    cbn in Hnew. destruct svc; [|discriminate].
    injection Hnew as <-. cbn.
    destruct (timeout =? 0); cbn;
      destruct (retry =? 0); cbn;
      destruct (threshold =? 0); cbn; auto. }
  destruct Hcb as [H0 Hset].
  assert (Hcount : FailureCount (after envs cb)
                   = Z.of_nat (List.length envs)).
  { unfold after.
    destruct (Calls_count_failures envs (fresh cb)) as [Hn| ->].
    - cbn. rewrite Hset. exact Hfb.
    - exact Hall.
    - rewrite Hn. cbn [fresh breaker]. rewrite H0.
      apply wrap_small.
      unfold Int64.in_range, Int64.min, Int64.max in *. lia.
    - cbn. exact H0. }
  split; [exact Hcount|].
  intros now. rewrite State_closed_iff, Hcount.
  unfold after. rewrite Calls_keep_settings. reflexivity.
Qed.

(** ** What the hooks can rely on *)

Lemma hook_events_reset (s : CircuitSettings Callable CircuitEvent)
    pre post :
  In OnResetFired (hook_events s pre post) ->
  post = IsClosed /\ pre <> IsClosed.
Proof.
  unfold hook_events, fired.
  destruct (CircuitState_eq_dec post pre) as [Heq|Hne]; [intros []|].
  destruct (OnStateChange s), (OnTrip s), (OnReset s), post; cbn;
    intuition congruence.
Qed.

Lemma hook_events_trip (s : CircuitSettings Callable CircuitEvent)
    pre post :
  In OnTripFired (hook_events s pre post) ->
  post = IsOpen /\ pre <> IsOpen.
Proof.
  unfold hook_events, fired.
  destruct (CircuitState_eq_dec post pre) as [Heq|Hne]; [intros []|].
  destruct (OnStateChange s), (OnTrip s), (OnReset s), post; cbn;
    intuition congruence.
Qed.

(** X8: when the reset hook fires, the ledger has just been reset: the
    hook finds a failure count of 0, an empty failure record and no
    instant of failure, and the call did not rely on the fallback. *)
Theorem reset_hook_finds_empty_ledger env w :
  Int64.min <= FailureCount (breaker w) < Int64.max ->
  In OnResetFired (hooks_fired env w) ->
  Call_fallbacked env w = false
  /\ FailureCount (breaker (Call_world env w)) = 0
  /\ FailureRecord (breaker (Call_world env w)) = []
  /\ LastFailureTime (breaker (Call_world env w)) = zeroTime.
Proof.
  intros Hrange Hin. rewrite hooks_fired_eq in Hin.
  apply hook_events_reset in Hin as [Hpost Hpre].
  unfold newState in Hpost. unfold preState in Hpre.
  rewrite State_closed_iff in Hpost, Hpre.
  rewrite Call_breaker in *.
  destruct (Call_fallbacked env w).
  - exfalso. cbn [recorded FailureCount Settings] in Hpost.
    unfold Int64.add in Hpost. rewrite wrap_small in Hpost
      by (unfold Int64.in_range, Int64.min, Int64.max in *; lia).
    lia.
  - repeat split.
Qed.

(** X9: with a positive threshold, the trip hook fires only in a call
    that relied on the fallback and recorded a failure: the call returns
    an error, and the hook finds a failure count that has reached the
    threshold. *)
Theorem trip_hook_finds_recorded_failure env w :
  0 < FailureThreshold (Settings (breaker w)) ->
  In OnTripFired (hooks_fired env w) ->
  Call_fallbacked env w = true
  /\ Call_error env w <> None
  /\ FailureThreshold (Settings (breaker w))
     <= FailureCount (breaker (Call_world env w)).
Proof.
  intros Hpos Hin. rewrite hooks_fired_eq in Hin.
  apply hook_events_trip in Hin as [Hpost _].
  unfold newState in Hpost. apply State_open_iff in Hpost as [Hpost _].
  rewrite Call_settings in Hpost.
  assert (Hf : Call_fallbacked env w = true).
  { destruct (Call_fallbacked env w) eqn:Hf; [reflexivity|].
    rewrite Call_breaker, Hf in Hpost. cbn in Hpost. lia. }
  split; [exact Hf|]. split; [apply Call_fallbacked_error, Hf|exact Hpost].
Qed.

(** ** Error messages *)

Lemma string_app_assoc (a b c : string) :
  ((a ++ b) ++ c = a ++ b ++ c)%string.
Proof. induction a as [|x a IH]; cbn; [reflexivity|]. rewrite IH. reflexivity. Qed.

(** X10: the message of the error a call returns.  On an open breaker it
    starts with "Service was fallbacked due to open state".  Otherwise,
    when the call relies on the fallback, it starts with "Service was
    fallbacked due to error" and ends with the message of the failure
    of the service; and when it does not, the error is the failure of
    the service itself, whose message starts with "Error when calling
    service: ". *)
Theorem Call_error_messages env w e :
  Call_error env w = Some e ->
  (preState env w = IsOpen ->
   exists tail,
     Error e = Fixtures.fallbackDueToOpenStateMessage ++ tail)
  /\ (preState env w <> IsOpen -> Call_fallbacked env w = true ->
      exists cause mid,
        snd (fst (callService (service_event env) w)) = Some cause
        /\ Error e
           = Fixtures.fallbackDueToErrorMessage ++ mid ++ Error cause)
  /\ (preState env w <> IsOpen -> Call_fallbacked env w = false ->
      snd (fst (callService (service_event env) w)) = Some e
      /\ exists tail, Error e = "Error when calling service: " ++ tail).
Proof.
  rewrite Call_error_eq, Call_fallbacked_eq.
  pose proof (preState_valid env w) as Hvalid.
  unfold Fixtures.fallbackDueToOpenStateMessage,
    Fixtures.fallbackDueToErrorMessage.
  destruct (preState env w); [congruence| | |].
  3: { intros He. split; [intros _|split; congruence].
       revert He. dispatch env w; intros [= <-];
         eexists; cbn [Error]; reflexivity. }
  all: dispatch env w; intros He; try discriminate He;
    injection He as <-;
    (split; [congruence|]);
    (split; intros _ Hf; try discriminate Hf).
  all: try (split; [reflexivity|eexists; cbn [Error]; reflexivity]).
  all: try (eexists; exists (": ")%string;
            split; [reflexivity|cbn [Error]; reflexivity]).
  all: eexists;
    match goal with
    | H : rError (fallback_response _) = Some ?fe |- _ =>
      exists (" but failed too: " ++ Error fe ++ ": ")%string
    end;
    (split; [reflexivity|]); cbn [Error];
    rewrite !string_app_assoc; reflexivity.
Qed.

Lemma Call_fallbacked_message env w :
  Call_fallbacked env w = true ->
  exists tail,
    failure_message (Call_error env w)
    = "Service was fallbacked due to " ++ tail.
Proof.
  rewrite Call_fallbacked_eq, Call_error_eq.
  destruct (preState env w); dispatch env w; try discriminate;
    intros _; eexists; cbn [failure_message Error]; reflexivity.
Qed.

Lemma Calls_keep_record_entries (envs : list Env) w :
  Forall (fun m => exists tail, m = "Service was fallbacked due to " ++ tail)
         (FailureRecord (breaker w)) ->
  Forall (fun m => exists tail, m = "Service was fallbacked due to " ++ tail)
         (FailureRecord (breaker (snd (Calls envs w)))).
Proof.
  revert w. induction envs as [|env envs IH]; intros w H; [exact H|].
  rewrite Calls_step. apply IH. rewrite Call_breaker.
  destruct (Call_fallbacked env w) eqn:Hf; [|constructor].
  cbn [recorded FailureRecord]. apply Forall_app. split; [exact H|].
  constructor; [|constructor]. apply Call_fallbacked_message, Hf.
Qed.

(** X11: after any sequence of calls on a breaker the constructor
    returned, every entry of the failure record is the message of an
    error of a call that relied on the fallback: it starts with
    "Service was fallbacked due to ".  The message [recordFailure]
    keeps for a nil error is never recorded. *)
Theorem failure_record_entries
    (settings : CircuitSettings Callable CircuitEvent) cb
    (envs : list Env) :
  fst (NewCircuitBreaker settings) = Some cb ->
  Forall (fun m => exists tail, m = "Service was fallbacked due to " ++ tail)
         (FailureRecord (after envs cb))
  /\ ~ In "Service is relying on fallback" (FailureRecord (after envs cb)).
Proof.
  intros Hnew.
  assert (Hall : Forall
            (fun m => exists tail, m = "Service was fallbacked due to " ++ tail)
            (FailureRecord (after envs cb))).
  { unfold after. apply Calls_keep_record_entries.
    unfold NewCircuitBreaker in Hnew.
    destruct (Service settings); [|discriminate].
    injection Hnew as <-. constructor. }
  split; [exact Hall|].
  intros Hin. rewrite Forall_forall in Hall.
  destruct (Hall _ Hin) as [tail Htail]. discriminate Htail.
Qed.

(** ** States *)

(** X12: every state [State] derives is one of the three named ones:
    [ToString] never renders it as "invalid" and gives the three states
    three different names, and no call ever returns the error "Unknown
    state" that [selectiveCall] keeps for other values. *)
Theorem derived_states_are_named env w :
  ToString (preState env w) <> "invalid"
  /\ ToString (newState env w) <> "invalid"
  /\ (forall a b : CircuitState, ToString a = ToString b -> a = b)
  /\ Call_error env w <> Some (Errorf "Unknown state").
Proof.
  pose proof (preState_valid env w) as Hpre.
  pose proof (State_valid (now_post env) (breaker (Call_world env w)))
    as Hpost.
  fold (newState env w) in Hpost.
  split; [destruct (preState env w); cbn; congruence|].
  split; [destruct (newState env w); cbn; congruence|].
  split; [intros [] []; cbn; intros H; try reflexivity; discriminate H|].
  rewrite Call_error_eq.
  destruct (preState env w); [congruence| | |];
    dispatch env w; intros H; cbn in H; discriminate H.
Qed.


Lemma Call_genuine_content env w :
  genuine_success env w ->
  exists c, Call_content env w = Some c
            /\ service_event env
               = ResponseReceived {| rContent := Some c; rError := None |}.
Proof.
  intros [Hpre (res & c & Hev & He & Hc)].
  pose proof (preState_valid env w) as Hvalid.
  exists c. rewrite Call_content_eq.
  destruct res as [rc re]. cbn in He, Hc. subst rc re.
  split; [|exact Hev].
  destruct (preState env w); try congruence;
    unfold selectiveCall, callService, bind, ret, getCB, emit;
    rewrite Hev; reflexivity.
Qed.

End Facts.

(** ** The code on sample breakers *)

(** C1, where the code departs from the rule: [State] multiplies the
    elapsed nanoseconds by [time.Millisecond] before it compares them
    with the retry period.  One nanosecond after the breaker tripped,
    with a retry period of 3000, the elapsed time is within the period
    and the rule of the specification says open, yet [State] says
    half-open.  And once the product no longer fits in 64 bits it wraps
    to a negative number: the elapsed time is beyond the period and the
    rule says half-open, yet [State] says open.  The rule gives the same
    answers whether the period 3000 is read in nanoseconds, as a
    [time.Duration] is, or in milliseconds, as the settings document
    it. *)
Theorem State_scales_elapsed_time :
  FailureCount Samples.tripped = 2
  /\ FailureThreshold (Settings Samples.tripped) = 2
  /\ RetryTimePeriod (Settings Samples.tripped) = 3000
  /\ LastFailureTime Samples.tripped = Samples.trippedAt
  /\ State (Samples.trippedAt + 1) Samples.tripped = IsHalfOpen
  /\ deriveState 2 Samples.trippedAt 2 3000 (Samples.trippedAt + 1) = IsOpen
  /\ deriveState 2 Samples.trippedAt 2 (3000 * Millisecond)
       (Samples.trippedAt + 1) = IsOpen
  /\ State (Samples.trippedAt + Samples.overflowing) Samples.tripped = IsOpen
  /\ deriveState 2 Samples.trippedAt 2 3000
       (Samples.trippedAt + Samples.overflowing) = IsHalfOpen
  /\ deriveState 2 Samples.trippedAt 2 (3000 * Millisecond)
       (Samples.trippedAt + Samples.overflowing) = IsHalfOpen.
Proof. vm_compute. repeat split; reflexivity. Qed.

(** C2, where the code departs from the claim: on a breaker built
    without a fallback, a call whose service times out returns the
    timeout error, not fallbacked, and the ledger is reset instead of
    updated: the failure count stays 0, the record stays empty and no
    instant of failure is kept. *)
Theorem Call_failure_without_fallback_is_forgotten :
  preState (Samples.slowCall Samples.start)
           (fresh (Samples.built Samples.without_fallback)) = IsClosed
  /\ service_failed (service_event (Samples.slowCall Samples.start)) = true
  /\ Call (Samples.slowCall Samples.start)
          (fresh (Samples.built Samples.without_fallback))
     = ((None, false,
         Some (CallingError
                 (Errorf "Service timed out after 2000 milliseconds"))),
        {| breaker := Samples.built Samples.without_fallback;
           trace := [ServiceInvoked] |})
  /\ FailureCount (Samples.built Samples.without_fallback) = 0
  /\ FailureRecord (Samples.built Samples.without_fallback) = []
  /\ LastFailureTime (Samples.built Samples.without_fallback) = zeroTime.
Proof. vm_compute. repeat split; reflexivity. Qed.

(** C3, where the code departs from the claim: with no fallback set the
    ledger is reset by calls that are no success.  A breaker that holds
    one failure forgets it when the service fails again; a breaker that
    is open forgets its two failures when it rejects a call, and the
    state it derives next is closed. *)
Theorem Call_without_fallback_resets :
  FailureCount Samples.failedOnce = 1
  /\ service_failed
       (service_event (Samples.slowCall (Samples.start + 2 * Samples.second)))
     = true
  /\ Call_error (Samples.slowCall (Samples.start + 2 * Samples.second))
                (fresh Samples.failedOnce) <> None
  /\ breaker (Call_world (Samples.slowCall (Samples.start + 2 * Samples.second))
                         (fresh Samples.failedOnce))
     = cleared Samples.failedOnce
  /\ FailureCount Samples.trippedBare = 2
  /\ preState (Samples.instantCall Samples.trippedAt)
              (fresh Samples.trippedBare) = IsOpen
  /\ Call_error (Samples.instantCall Samples.trippedAt)
                (fresh Samples.trippedBare)
     = Some (Errorf "Service was fallbacked due to open state")
  /\ breaker (Call_world (Samples.instantCall Samples.trippedAt)
                         (fresh Samples.trippedBare))
     = cleared Samples.trippedBare
  /\ FailureCount (cleared Samples.trippedBare) = 0
  /\ newState (Samples.instantCall Samples.trippedAt)
              (fresh Samples.trippedBare) = IsClosed.
Proof. vm_compute. repeat split; try reflexivity; discriminate. Qed.

(** C7 as stated fails: the tripped breaker holds as many failures as
    its threshold, 2; the trial call made in the half-open state fails;
    afterwards the failure count is 3. *)
Lemma probing_failure_raises_count :
  FailureCount Samples.tripped = FailureThreshold (Settings Samples.tripped)
  /\ FailureThreshold (Settings Samples.tripped) = 2
  /\ preState Samples.probe (fresh Samples.tripped) = IsHalfOpen
  /\ service_failed (service_event Samples.probe) = true
  /\ FailureCount (breaker (Call_world Samples.probe (fresh Samples.tripped)))
     = 3
  /\ FailureCount (breaker (Call_world Samples.probe (fresh Samples.tripped)))
     <> FailureThreshold (Settings Samples.tripped).
Proof. vm_compute. repeat split; try reflexivity; discriminate. Qed.

(** ** The tests of [circuitbreaker_test.go], replayed *)

(** TestErrorOnCreationWithoutProvideAService and
    TestNoErrorOnCreationWithoutProvideAFallback. *)
Example creation :
  NewCircuitBreaker
    (Samples.settings None) = (Some (Samples.built Samples.without_fallback),
                               None)
  /\ fst (NewCircuitBreaker
            {| Service := None; Fallback := Some "fallback";
               Timeout := DefautTimeout;
               RetryTimePeriod := DefaultRetryTimePeriod;
               FailureThreshold := DefautlFailureThreshold;
               OnTrip := @None string; OnReset := None;
               OnStateChange := None |}) = None
  /\ Settings (Samples.built Samples.bare)
     = {| Service := Some "service"; Fallback := None;
          Timeout := 2000; RetryTimePeriod := 3000; FailureThreshold := 2;
          OnTrip := None; OnReset := None; OnStateChange := None |}.
Proof. vm_compute. repeat split; reflexivity. Qed.

(** TestServiceIsHealth. *)
Example service_is_health :
  Call (Samples.healthCall Samples.start)
       (fresh (Samples.built Samples.with_fallback))
  = ((Some "A health service gives a fast response", false, None),
     {| breaker := Samples.built Samples.with_fallback;
        trace := [ServiceInvoked] |})
  /\ State Samples.start (Samples.built Samples.with_fallback) = IsClosed.
Proof. vm_compute. split; reflexivity. Qed.

(** TestServiceIsSlow. *)
Example service_is_slow :
  fst (Call (Samples.slowCall Samples.start)
            (fresh (Samples.built Samples.with_fallback)))
  = (Some "Relying on a fallback cached content", true,
     Some (Errorf ("Service was fallbacked due to error: "
                   ++ "Error when calling service: "
                   ++ "Service timed out after 2000 milliseconds")))
  /\ newState (Samples.slowCall Samples.start)
              (fresh (Samples.built Samples.with_fallback)) = IsClosed.
Proof. vm_compute. split; reflexivity. Qed.

(** TestServiceIsAlwaysSlow: the breaker trips at the second failure,
    firing the state-change hook and then the trip hook; it stays open
    while calls are made at the instant of the last failure, and is
    half-open two seconds later. *)
Example service_is_always_slow :
  trace (snd (Calls [Samples.slowCall Samples.start;
                     Samples.slowCall (Samples.start + 2 * Samples.second)]
                    (fresh (Samples.built Samples.with_fallback))))
  = [ServiceInvoked; FallbackInvoked;
     ServiceInvoked; FallbackInvoked; OnStateChangeFired; OnTripFired]
  /\ State Samples.trippedAt Samples.tripped = IsOpen
  /\ fst (Call (Samples.instantCall Samples.trippedAt)
               (fresh Samples.tripped))
     = (Some "Relying on a fallback cached content", true,
        Some (Errorf "Service was fallbacked due to open state"))
  /\ newState (Samples.instantCall Samples.trippedAt)
              (fresh Samples.tripped) = IsOpen
  /\ State (Samples.trippedAt + 2 * Samples.second) Samples.tripped
     = IsHalfOpen.
Proof. vm_compute. repeat split; reflexivity. Qed.

(** A fallback that fails too, on an open breaker and on a closed one. *)
Example fallback_fails_too :
  Call_error
    {| now_pre := Samples.trippedAt;
       service_event := TimerFired;
       fallback_response := Samples.brokenFallback;
       now_failure := Samples.trippedAt;
       now_post := Samples.trippedAt |}
    (fresh Samples.tripped)
  = Some (Errorf ("Service was fallbacked due to open state but failed too: "
                  ++ "cache is cold"))
  /\ Call_error
       {| now_pre := Samples.start;
          service_event := TimerFired;
          fallback_response := Samples.brokenFallback;
          now_failure := Samples.start;
          now_post := Samples.start |}
       (fresh (Samples.built Samples.with_fallback))
     = Some (Errorf ("Service was fallbacked due to error but failed too: "
                     ++ "cache is cold: Error when calling service: "
                     ++ "Service timed out after 2000 milliseconds")).
Proof. vm_compute. split; reflexivity. Qed.

(** ** Instances *)

Lemma Call_open_rejects_witness :
  preState (Samples.instantCall Samples.trippedAt) (fresh Samples.tripped)
  = IsOpen
  /\ Call_fallbacked (Samples.instantCall Samples.trippedAt)
                     (fresh Samples.tripped) = true
  /\ Call_error (Samples.instantCall Samples.trippedAt)
                (fresh Samples.tripped)
     = Some (Errorf "Service was fallbacked due to open state").
Proof.
  assert (H : preState (Samples.instantCall Samples.trippedAt)
                       (fresh Samples.tripped) = IsOpen)
    by (vm_compute; reflexivity).
  destruct (Call_open_rejects _ _ _ _ _ H) as (_ & Hfb & _).
  destruct (Hfb ltac:(vm_compute; discriminate)) as (_ & _ & Hf & He).
  split; [exact H|]. split; [exact Hf|exact He].
Defined.

Lemma Call_probing_failure_records_witness :
  preState Samples.probe (fresh Samples.tripped) = IsHalfOpen
  /\ FailureCount (breaker (Call_world Samples.probe (fresh Samples.tripped)))
     = 2 + 1
  /\ newState Samples.probe (fresh Samples.tripped) = IsOpen.
Proof.
  assert (H : preState Samples.probe (fresh Samples.tripped) = IsHalfOpen)
    by (vm_compute; reflexivity).
  destruct (Call_probing_failure_records _ _ _ Samples.probe
              (fresh Samples.tripped)
              ltac:(vm_compute; discriminate)
              ltac:(vm_compute; reflexivity)
              ltac:(vm_compute; split; [discriminate|reflexivity])
              H
              ltac:(vm_compute; reflexivity))
    as (Hc & _ & _ & _ & Ho).
  split; [exact H|]. split; [exact Hc|].
  apply Ho; [vm_compute; reflexivity|vm_compute; discriminate].
Defined.

Lemma failure_count_is_record_length_witness :
  fst (NewCircuitBreaker Samples.with_fallback)
  = Some (Samples.built Samples.with_fallback)
  /\ FailureCount
       (after [Samples.slowCall Samples.start;
               Samples.slowCall (Samples.start + 2 * Samples.second)]
              (Samples.built Samples.with_fallback))
     = 2.
Proof.
  assert (H : fst (NewCircuitBreaker Samples.with_fallback)
              = Some (Samples.built Samples.with_fallback))
    by (vm_compute; reflexivity).
  split; [exact H|].
  destruct (failure_count_is_record_length string string string
              Samples.with_fallback (Samples.built Samples.with_fallback)
              [Samples.slowCall Samples.start;
               Samples.slowCall (Samples.start + 2 * Samples.second)]
              H ltac:(vm_compute; discriminate))
    as (_ & Hc).
  exact Hc.
Defined.

Lemma Call_with_fallback_records_failure_witness :
  preState (Samples.instantCall Samples.trippedAt) (fresh Samples.tripped)
  = IsOpen
  /\ FailureCount
       (breaker (Call_world (Samples.instantCall Samples.trippedAt)
                            (fresh Samples.tripped)))
     = 3.
Proof.
  assert (H : preState (Samples.instantCall Samples.trippedAt)
                       (fresh Samples.tripped) = IsOpen)
    by (vm_compute; reflexivity).
  split; [exact H|].
  destruct (Call_with_fallback_records_failure _ _ _
              (Samples.instantCall Samples.trippedAt) (fresh Samples.tripped)
              ltac:(vm_compute; discriminate) (or_introl H))
    as (_ & Hc & _).
  exact Hc.
Defined.

Lemma Call_success_resets_witness :
  FailureCount Samples.tripped = 2
  /\ preState (Samples.healthCall (Samples.trippedAt + 4 * Samples.second))
              (fresh Samples.tripped) = IsHalfOpen
  /\ FailureCount
       (breaker (Call_world
                   (Samples.healthCall (Samples.trippedAt + 4 * Samples.second))
                   (fresh Samples.tripped))) = 0
  /\ newState (Samples.healthCall (Samples.trippedAt + 4 * Samples.second))
              (fresh Samples.tripped) = IsClosed.
Proof.
  assert (Hok : genuine_success
                  (Samples.healthCall (Samples.trippedAt + 4 * Samples.second))
                  (fresh Samples.tripped)).
  { split; [vm_compute; discriminate|].
    exists Samples.healthServiceContent,
           "A health service gives a fast response".
    repeat split. }
  destruct (Call_success_resets _ _ _ _ _ Hok) as (_ & Hc & _ & _ & Hs).
  split; [reflexivity|]. split; [vm_compute; reflexivity|].
  split; [exact Hc|]. apply Hs. vm_compute. reflexivity.
Defined.

(** ** The fixtures *)

(** X14: [createCircuitBreaker] passes the defaults explicitly, which
    builds the same breaker as leaving timeout, retry period and
    threshold unset.  Without a service it fails, as
    [createCircuitBreakerWithNoService] does; with one,
    [createCircuitBreakerWithNoFallback] returns a breaker without
    fallback and without error, whose state is closed. *)
Theorem createCircuitBreaker_defaults (Callable CircuitEvent : Type)
    (service fallback : option Callable) :
  @Fixtures.createCircuitBreaker Callable CircuitEvent service fallback
  = NewCircuitBreaker
      {| Service := service; Fallback := fallback;
         Timeout := 0; RetryTimePeriod := 0; FailureThreshold := 0;
         OnTrip := None; OnReset := None; OnStateChange := None |}
  /\ (service = None ->
      @Fixtures.createCircuitBreaker Callable CircuitEvent service fallback
      = (None, Some (Errorf "You must provide a service to be called")))
  /\ @Fixtures.createCircuitBreakerWithNoService Callable CircuitEvent
     = (None, Some (Errorf "You must provide a service to be called"))
  /\ (service <> None ->
      exists cb,
        @Fixtures.createCircuitBreakerWithNoFallback Callable CircuitEvent
          service = (Some cb, None)
        /\ Service (Settings cb) = service
        /\ Fallback (Settings cb) = None
        /\ FailureThreshold (Settings cb) = 2
        /\ forall now, State now cb = IsClosed).
Proof.
  unfold Fixtures.createCircuitBreakerWithNoService,
    Fixtures.createCircuitBreakerWithNoFallback,
    Fixtures.createCircuitBreaker, NewCircuitBreaker.
  cbn. split; [destruct service; reflexivity|].
  split; [intros ->; reflexivity|]. split; [reflexivity|].
  intros Hs. destruct service as [svc|]; [|congruence].
  eexists. split; [reflexivity|]. cbn. repeat split.
Qed.

Lemma countdownRuns_step (n : nat) (c : Z) :
  Fixtures.countdownRuns (S n) c
  = (fst (Fixtures.countdownRuns n (fst (Fixtures.countdownToHealthService c))),
     snd (Fixtures.countdownToHealthService c)
     :: snd (Fixtures.countdownRuns n
               (fst (Fixtures.countdownToHealthService c)))).
Proof.
  cbn [Fixtures.countdownRuns].
  destruct (Fixtures.countdownToHealthService c) as [c1 r].
  cbn [fst snd]. destruct (Fixtures.countdownRuns n c1). reflexivity.
Qed.

(** X15: [countdownToHealthService], called again and again with the
    variable [countdownToHealth] at [c]: the first [c] calls sleep a
    minute and return the slow response, every later call returns the
    healthy one at once, and the variable counts down to 0 and stays
    there. *)
Theorem countdownToHealthService_counts_down (n : nat) (c : Z) :
  0 <= c <= Int64.max ->
  fst (Fixtures.countdownRuns n c) = Z.max 0 (c - Z.of_nat n)
  /\ List.length (snd (Fixtures.countdownRuns n c)) = n
  /\ forall k, (k < n)%nat ->
       nth_error (snd (Fixtures.countdownRuns n c)) k
       = Some (if Z.of_nat k <? c
               then {| Fixtures.slept := 1 * Minute;
                       Fixtures.returned :=
                         Fixtures.contentOnly "This is a slow response" |}
               else {| Fixtures.slept := 0;
                       Fixtures.returned :=
                         Fixtures.contentOnly
                           Fixtures.countdownToHealthContent |}).
Proof.
  revert c. induction n as [|n IH]; intros c Hc.
  - cbn. split; [lia|]. split; [reflexivity|]. intros k Hk. lia.
  - rewrite countdownRuns_step. cbn [fst snd List.length].
    unfold Fixtures.countdownToHealthService.
    destruct (Z.gtb_spec c 0) as [Hpos|Hzero]; cbn [fst snd].
    + assert (Hw : Int64.wrap (c - 1) = c - 1)
        by (apply wrap_small;
            unfold Int64.in_range, Int64.min, Int64.max in *; lia).
      rewrite Hw.
      destruct (IH (c - 1)) as (Hfst & Hlen & Hnth);
        [unfold Int64.max in *; lia|].
      split; [rewrite Hfst; lia|]. split; [rewrite Hlen; reflexivity|].
      intros [|k] Hk.
      * cbn. destruct (Z.ltb_spec 0 c); [reflexivity|lia].
      * cbn [nth_error]. rewrite Hnth by lia.
        destruct (Z.ltb_spec (Z.of_nat k) (c - 1)),
                 (Z.ltb_spec (Z.of_nat (S k)) c); try reflexivity; lia.
    + destruct (IH c Hc) as (Hfst & Hlen & Hnth).
      split; [rewrite Hfst; lia|]. split; [rewrite Hlen; reflexivity|].
      intros [|k] Hk.
      * cbn. destruct (Z.ltb_spec 0 c); [lia|reflexivity].
      * cbn [nth_error]. rewrite Hnth by lia.
        destruct (Z.ltb_spec (Z.of_nat k) c),
                 (Z.ltb_spec (Z.of_nat (S k)) c); try reflexivity; lia.
Qed.

(** ** The driver *)

(** X16: what [printResponse] shows of a call.  After a genuine success
    it prints the content the service returned, marked
    [fallbacked=false]; after any other call it prints the error, and
    neither the content of the fallback nor [fallbacked=true] is ever
    shown. *)
Theorem printResponse_after_Call (env : CallEnv string)
    (w : World string string) :
  (genuine_success env w ->
   exists c,
     service_event env
     = ResponseReceived {| rContent := Some c; rError := None |}
     /\ Driver.printResponse (Call_content env w) (Call_fallbacked env w)
                             (Call_error env w)
        = "CONTENT: " ++ c ++ " (fallbacked=false)" ++ Driver.nl)
  /\ (~ genuine_success env w ->
      exists e,
        Call_error env w = Some e
        /\ Driver.printResponse (Call_content env w) (Call_fallbacked env w)
                                (Call_error env w)
           = "ERROR: " ++ Error e ++ Driver.nl).
Proof.
  split.
  - intros Hok.
    destruct (Call_genuine_content _ _ _ env w Hok) as (c & Hc & Hev).
    exists c. split; [exact Hev|].
    assert (He : Call_error env w = None)
      by (apply Call_error_none_iff; exact Hok).
    assert (Hf : Call_fallbacked env w = false)
      by (apply Call_resets_unless_fallbacked; right; exact Hok).
    rewrite Hc, He, Hf. reflexivity.
  - intros Hno.
    destruct (Call_error env w) as [e|] eqn:He.
    + exists e. split; reflexivity.
    + exfalso. apply Hno. apply Call_error_none_iff. exact He.
Qed.

(** The third part of [main], replayed: the sample output of the
    README. *)
Example main_intermittently_slow_service :
  Driver.loop true 0 Driver.intermittentTurns
              (fresh Driver.intermittentBreaker)
  = String.concat Driver.nl
      [ "ERROR: Service was fallbacked due to error: Error when calling service: Service timed out after 2000 milliseconds";
        "--- circuit state changed (open) ---";
        "--- circuit tripped (2 failures) ---";
        "ERROR: Service was fallbacked due to error: Error when calling service: Service timed out after 2000 milliseconds";
        "ERROR: Service was fallbacked due to open state";
        "ERROR: Service was fallbacked due to open state";
        "ERROR: Service was fallbacked due to open state";
        "ERROR: Service was fallbacked due to open state";
        "--- awaiting 3 seconds ---";
        "--- circuit state (half-open) ---";
        "--- circuit state changed (open) ---";
        "--- circuit tripped (7 failures) ---";
        "ERROR: Service was fallbacked due to error: Error when calling service: Service timed out after 2000 milliseconds";
        "ERROR: Service was fallbacked due to open state";
        "--- awaiting 3 seconds ---";
        "--- circuit state (half-open) ---";
        "--- circuit state changed (closed) ---";
        "--- circuit resetted (0 failures) ---";
        "CONTENT: This is a health fast response (fallbacked=false)";
        "CONTENT: This is a health fast response (fallbacked=false)";
        "" ].
Proof. vm_compute. reflexivity. Qed.

(** ** More instances *)

Lemma consecutive_failures_trip_witness :
  FailureCount
    (after [Samples.slowCall Samples.start;
            Samples.slowCall (Samples.start + 2 * Samples.second)]
           (Samples.built Samples.with_fallback)) = 2
  /\ State Samples.trippedAt
       (after [Samples.slowCall Samples.start;
               Samples.slowCall (Samples.start + 2 * Samples.second)]
              (Samples.built Samples.with_fallback)) <> IsClosed.
Proof.
  destruct (consecutive_failures_trip string string string
              Samples.with_fallback (Samples.built Samples.with_fallback)
              [Samples.slowCall Samples.start;
               Samples.slowCall (Samples.start + 2 * Samples.second)]
              ltac:(vm_compute; reflexivity)
              ltac:(vm_compute; discriminate)
              ltac:(repeat constructor)
              ltac:(vm_compute; discriminate))
    as (Hc & Hs).
  split; [exact Hc|].
  intros Hclosed. apply Hs in Hclosed. vm_compute in Hclosed.
  discriminate Hclosed.
Defined.

Lemma reset_hook_finds_empty_ledger_witness :
  In OnResetFired
     (hooks_fired
        (Samples.healthCall (Samples.trippedAt + 4 * Samples.second))
        (fresh Samples.tripped))
  /\ FailureCount
       (breaker
          (Call_world
             (Samples.healthCall (Samples.trippedAt + 4 * Samples.second))
             (fresh Samples.tripped))) = 0.
Proof.
  assert (Hin : In OnResetFired
                   (hooks_fired
                      (Samples.healthCall
                         (Samples.trippedAt + 4 * Samples.second))
                      (fresh Samples.tripped)))
    by (vm_compute; right; left; reflexivity).
  split; [exact Hin|].
  destruct (reset_hook_finds_empty_ledger string string string
              (Samples.healthCall (Samples.trippedAt + 4 * Samples.second))
              (fresh Samples.tripped)
              ltac:(vm_compute; split; [discriminate|reflexivity])
              Hin)
    as (_ & Hc & _).
  exact Hc.
Defined.

Lemma trip_hook_finds_recorded_failure_witness :
  In OnTripFired
     (hooks_fired
        (Samples.slowCall (Samples.start + 2 * Samples.second))
        (fresh (after [Samples.slowCall Samples.start]
                      (Samples.built Samples.with_fallback))))
  /\ Call_fallbacked
       (Samples.slowCall (Samples.start + 2 * Samples.second))
       (fresh (after [Samples.slowCall Samples.start]
                     (Samples.built Samples.with_fallback))) = true.
Proof.
  assert (Hin : In OnTripFired
                   (hooks_fired
                      (Samples.slowCall (Samples.start + 2 * Samples.second))
                      (fresh (after [Samples.slowCall Samples.start]
                                    (Samples.built Samples.with_fallback)))))
    by (vm_compute; right; left; reflexivity).
  split; [exact Hin|].
  destruct (trip_hook_finds_recorded_failure string string string
              (Samples.slowCall (Samples.start + 2 * Samples.second))
              (fresh (after [Samples.slowCall Samples.start]
                            (Samples.built Samples.with_fallback)))
              ltac:(vm_compute; reflexivity)
              Hin)
    as (Hf & _).
  exact Hf.
Defined.

Lemma Call_error_messages_witness :
  Call_error (Samples.instantCall Samples.trippedAt) (fresh Samples.tripped)
  = Some (Errorf "Service was fallbacked due to open state")
  /\ exists tail,
      "Service was fallbacked due to open state"
      = Fixtures.fallbackDueToOpenStateMessage ++ tail.
Proof.
  assert (He : Call_error (Samples.instantCall Samples.trippedAt)
                          (fresh Samples.tripped)
               = Some (Errorf "Service was fallbacked due to open state"))
    by (vm_compute; reflexivity).
  split; [exact He|].
  destruct (Call_error_messages string string string
              (Samples.instantCall Samples.trippedAt) (fresh Samples.tripped)
              _ He)
    as (Hopen & _).
  exact (Hopen ltac:(vm_compute; reflexivity)).
Defined.

Lemma failure_record_entries_witness :
  fst (NewCircuitBreaker Samples.with_fallback)
  = Some (Samples.built Samples.with_fallback)
  /\ ~ In "Service is relying on fallback"
          (FailureRecord
             (after [Samples.slowCall Samples.start;
                     Samples.instantCall (Samples.start + 2 * Samples.second)]
                    (Samples.built Samples.with_fallback))).
Proof.
  assert (H : fst (NewCircuitBreaker Samples.with_fallback)
              = Some (Samples.built Samples.with_fallback))
    by (vm_compute; reflexivity).
  split; [exact H|].
  exact (proj2 (failure_record_entries string string string
                  Samples.with_fallback (Samples.built Samples.with_fallback)
                  [Samples.slowCall Samples.start;
                   Samples.instantCall (Samples.start + 2 * Samples.second)]
                  H)).
Defined.


Lemma countdownToHealthService_counts_down_witness :
  0 <= 3 <= Int64.max
  /\ fst (Fixtures.countdownRuns 5 3) = 0.
Proof.
  assert (H : 0 <= 3 <= Int64.max)
    by (vm_compute; split; discriminate).
  split; [exact H|].
  exact (proj1 (countdownToHealthService_counts_down 5 3 H)).
Defined.
